(** * CreditPro: the credit decision engine of [backend/server.py]

    A shallow embedding of the business logic of the credit approval
    service ([calculate_credit_score], [calculate_emi],
    [determine_interest_rate]) and of the request handlers that use it
    ([register_customer], [check_eligibility], [create_loan],
    [make_payment]), followed by the properties of the specification.

    Modelling conventions.
    - Python [float] and [int] values that carry money, rates and ratios
      are exact rationals ([Q]); counters and scores are integers ([Z]).
      Rounding error of binary floating point is not part of the model.
    - A stored document is a record; the numeric keys the handlers read
      with [dict.get(key, default)] or [dict[key]] are [option] fields,
      [None] standing for an absent key.
    - An exception is a value of [exn]; a computation that may raise
      returns a [result].
    - The three MongoDB collections are lists in insertion order.  Storage
      operations themselves do not fail.
    - [uuid.uuid4()] and [datetime.utcnow()] are inputs of the handlers;
      a timestamp is a number of seconds. *)

From Stdlib Require Import ZArith QArith Qround Qabs Qpower.
From Stdlib Require Import List String Bool Lia Lqa Permutation.
Import ListNotations.

Local Open Scope string_scope.
Local Open Scope Q_scope.

(** ** Exceptions and results *)

Inductive exn : Type :=
| ZeroDivisionError
| KeyError (key : string)
| HTTPException (status_code : Z) (detail : string).

Inductive result (A : Type) : Type :=
| Ok (a : A)
| Raise (e : exn).

Arguments Ok {A} a.
Arguments Raise {A} e.

Definition bind {A B : Type} (r : result A) (k : A -> result B) : result B :=
  match r with
  | Ok a => k a
  | Raise e => Raise e
  end.

Notation "x <- c ;; k" := (bind c (fun x => k))
  (at level 61, c at next level, right associativity).

(** ** Python arithmetic on exact numbers *)

Module Py.

(** [a < b] and [a > b] on numbers. *)
Definition ltb (a b : Q) : bool := negb (Qle_bool b a).
Definition gtb (a b : Q) : bool := ltb b a.

(** [a / b]: true division, raising on a zero divisor. *)
Definition truediv (a b : Q) : result Q :=
  if Qeq_bool b 0 then Raise ZeroDivisionError else Ok (a / b).

(** [pow(b, n)] with an integer exponent: zero to a negative power
    raises. *)
Definition pow (b : Q) (n : Z) : result Q :=
  if Qeq_bool b 0 && (n <? 0)%Z then Raise ZeroDivisionError
  else Ok (b ^ n).

(** [int(x)]: truncation toward zero. *)
Definition int (x : Q) : Z := Z.quot (Qnum x) (Zpos (Qden x)).

(** [round(x)]: the nearest integer, ties going to the even one. *)
Definition round (x : Q) : Z :=
  let f := Qfloor x in
  let r := x - inject_Z f in
  if ltb r (1 # 2) then f
  else if ltb (1 # 2) r then (f + 1)%Z
  else if Z.even f then f else (f + 1)%Z.

(** [round(x, 2)]. *)
Definition round2 (x : Q) : Q := inject_Z (round (x * 100)) / 100.

(** [max(a, b)]: the first argument unless the second is greater. *)
Definition max (a b : Q) : Q := if ltb a b then b else a.

(** [sum(...)] over numbers and over integers, from the left, from 0. *)
Definition sum (xs : list Q) : Q := fold_left Qplus xs 0.
Definition sumZ (xs : list Z) : Z := fold_left Z.add xs 0%Z.

(** [d.get(key, default)] and [d[key]] on an optional key. *)
Definition get {A : Type} (field : option A) (default : A) : A :=
  match field with
  | Some v => v
  | None => default
  end.

Definition getitem {A : Type} (key : string) (field : option A) : result A :=
  match field with
  | Some v => Ok v
  | None => Raise (KeyError key)
  end.

End Py.

(** ** Stored documents *)

Module Customer.
Record t : Type := mk {
  customer_id : string;
  first_name : string;
  last_name : string;
  phone_number : option string;
  monthly_salary : option Q;
  approved_limit : option Q;
  current_debt : option Q;
  created_at : Z
}.
End Customer.

Module Loan.
Record t : Type := mk {
  loan_id : string;
  customer_id : string;
  loan_amount : option Q;
  tenure : option Z;
  interest_rate : Q;
  monthly_repayment : option Q;
  emis_paid_on_time : option Z;
  start_date : Z;
  end_date : Z;
  status : string;
  created_at : Z
}.
End Loan.

Module Payment.
Record t : Type := mk {
  loan_id : string;
  payment_amount : Q;
  payment_date : Z
}.
End Payment.

(** ** Business logic *)

(** [calculate_credit_score(customer, loans)]. *)
Definition calculate_credit_score (customer : Customer.t) (loans : list Loan.t)
  : result Z :=
  let score := 500%Z in
  match loans with
  | [] => Ok score
  | _ :: _ =>
    (* payment history *)
    let total_emis := Py.sumZ (map (fun loan => Py.get (Loan.tenure loan) 0%Z) loans) in
    let paid_on_time :=
      Py.sumZ (map (fun loan => Py.get (Loan.emis_paid_on_time loan) 0%Z) loans) in
    payment_ratio <-
      (if (total_emis >? 0)%Z
       then Py.truediv (inject_Z paid_on_time) (inject_Z total_emis)
       else Ok 0) ;;
    let score := (score + Py.int (payment_ratio * 200))%Z in
    (* debt to limit ratio *)
    debt_ratio <-
      Py.truediv (Py.get (Customer.current_debt customer) 0)
                 (Py.get (Customer.approved_limit customer) 1) ;;
    let score := (score + Py.int ((1 - debt_ratio) * 150))%Z in
    (* loan activity *)
    let score := if (0 <? List.length loans)%nat then (score + 100)%Z else score in
    let score := if (3 <? List.length loans)%nat then (score + 50)%Z else score in
    (* income ratio *)
    avg_loan_amount <-
      Py.truediv (Py.sum (map (fun loan => Py.get (Loan.loan_amount loan) 0) loans))
                 (inject_Z (Z.of_nat (List.length loans))) ;;
    income_ratio <-
      (if Py.gtb avg_loan_amount 0
       then Py.truediv (Py.get (Customer.monthly_salary customer) 0) avg_loan_amount
       else Ok 0) ;;
    let score := if Py.gtb income_ratio 2 then (score + 50)%Z else score in
    Ok (Z.max (Z.min score 850) 300)
  end.

(** [calculate_emi(principal, rate, tenure)]. *)
Definition calculate_emi (principal rate : Q) (tenure : Z) : result Q :=
  let monthly_rate := rate / (12 * 100) in
  if Qeq_bool monthly_rate 0 then Py.truediv principal (inject_Z tenure)
  else
    p1 <- Py.pow (1 + monthly_rate) tenure ;;
    p2 <- Py.pow (1 + monthly_rate) tenure ;;
    emi <- Py.truediv (principal * monthly_rate * p1) (p2 - 1) ;;
    Ok (Py.round2 emi).

(** [determine_interest_rate(credit_score)]. *)
Definition determine_interest_rate (credit_score : Z) : Q :=
  if (credit_score >=? 750)%Z then 8
  else if (credit_score >=? 650)%Z then 10
  else if (credit_score >=? 550)%Z then 12
  else 15.

(** ** The document store *)

Module Db.
Record t : Type := mk {
  customers : list Customer.t;
  loans : list Loan.t;
  loan_payments : list Payment.t
}.

(** [collection.find_one(filter)]: the first matching document. *)
Definition find_one {A : Type} (p : A -> bool) (docs : list A) : option A :=
  List.find p docs.

(** [await collection.find(filter).to_list(length=n)]: the matching
    documents in storage order, at most [n] of them. *)
Definition find_to_list {A : Type} (p : A -> bool) (n : nat) (docs : list A)
  : list A :=
  firstn n (filter p docs).

(** [collection.insert_one(doc)]. *)
Definition insert_one {A : Type} (doc : A) (docs : list A) : list A :=
  docs ++ [doc].

(** [collection.update_one(filter, update)]: the update applies to the
    first matching document only. *)
Fixpoint update_one {A : Type} (p : A -> bool) (f : A -> A) (docs : list A)
  : list A :=
  match docs with
  | [] => []
  | d :: rest => if p d then f d :: rest else d :: update_one p f rest
  end.

(** The [$inc] update operator on a numeric key; an absent key is set
    to the increment. *)
Definition incQ (field : option Q) (by_ : Q) : option Q :=
  match field with
  | Some v => Some (v + by_)
  | None => Some by_
  end.

Definition incZ (field : option Z) (by_ : Z) : option Z :=
  match field with
  | Some v => Some (v + by_)%Z
  | None => Some by_
  end.
End Db.

Definition customer_filter (customer_id : string) (c : Customer.t) : bool :=
  String.eqb (Customer.customer_id c) customer_id.

Definition loans_of_filter (customer_id : string) (l : Loan.t) : bool :=
  String.eqb (Loan.customer_id l) customer_id.

Definition loan_filter (loan_id : string) (l : Loan.t) : bool :=
  String.eqb (Loan.loan_id l) loan_id.

Definition inc_current_debt (amount : Q) (c : Customer.t) : Customer.t :=
  Customer.mk (Customer.customer_id c) (Customer.first_name c)
    (Customer.last_name c) (Customer.phone_number c)
    (Customer.monthly_salary c) (Customer.approved_limit c)
    (Db.incQ (Customer.current_debt c) amount) (Customer.created_at c).

Definition inc_emis_paid_on_time (n : Z) (l : Loan.t) : Loan.t :=
  Loan.mk (Loan.loan_id l) (Loan.customer_id l) (Loan.loan_amount l)
    (Loan.tenure l) (Loan.interest_rate l) (Loan.monthly_repayment l)
    (Db.incZ (Loan.emis_paid_on_time l) n) (Loan.start_date l)
    (Loan.end_date l) (Loan.status l) (Loan.created_at l).

(** ** Request and response models *)

Module CustomerCreate.
Record t : Type := mk {
  first_name : string;
  last_name : string;
  phone_number : option string;
  monthly_salary : Q
}.
End CustomerCreate.

(** [LoanEligibility] and [LoanCreate] have the same four fields. *)
Module LoanRequest.
Record t : Type := mk {
  customer_id : string;
  loan_amount : Q;
  interest_rate : Q;
  tenure : Z
}.
End LoanRequest.

Module RegisterResponse.
Record t : Type := mk {
  customer_id : string;
  name : string;
  phone_number : option string;
  monthly_salary : Q;
  approved_limit : Z
}.
End RegisterResponse.

Module EligibilityResponse.
Record t : Type := mk {
  customer_id : string;
  approval : bool;
  interest_rate : Q;
  corrected_interest_rate : Q;
  tenure : Z;
  monthly_installment : Q;
  credit_score : Z
}.
End EligibilityResponse.

Module LoanResponse.
Record t : Type := mk {
  loan_id : string;
  customer_id : string;
  loan_approved : bool;
  message : string;
  monthly_installment : Q
}.
End LoanResponse.

Module PaymentResponse.
Record t : Type := mk {
  message : string;
  loan_id : string;
  payment_amount : Q;
  payment_date : Z
}.
End PaymentResponse.

(** ** Request handlers *)

(** [POST /register]. *)
Definition register_customer (db : Db.t) (customer_data : CustomerCreate.t)
    (uuid : string) (now : Z) : Db.t * result RegisterResponse.t :=
  let customer_id := uuid in
  let approved_limit := Py.round (36 * CustomerCreate.monthly_salary customer_data) in
  let customer_doc :=
    Customer.mk customer_id
      (CustomerCreate.first_name customer_data)
      (CustomerCreate.last_name customer_data)
      (CustomerCreate.phone_number customer_data)
      (Some (CustomerCreate.monthly_salary customer_data))
      (Some (inject_Z approved_limit))
      (Some 0)
      now in
  (Db.mk (Db.insert_one customer_doc (Db.customers db)) (Db.loans db)
         (Db.loan_payments db),
   Ok (RegisterResponse.mk customer_id
         (CustomerCreate.first_name customer_data ++ " "
            ++ CustomerCreate.last_name customer_data)
         (CustomerCreate.phone_number customer_data)
         (CustomerCreate.monthly_salary customer_data)
         approved_limit)).

Definition seconds_per_day : Z := 86400.

(** [POST /check-eligibility]. *)
Definition check_eligibility (db : Db.t) (eligibility_data : LoanRequest.t)
  : result EligibilityResponse.t :=
  let cid := LoanRequest.customer_id eligibility_data in
  let loan_amount := LoanRequest.loan_amount eligibility_data in
  let interest_rate := LoanRequest.interest_rate eligibility_data in
  let tenure := LoanRequest.tenure eligibility_data in
  match Db.find_one (customer_filter cid) (Db.customers db) with
  | None => Raise (HTTPException 404 "Customer not found")
  | Some customer =>
    let loans := Db.find_to_list (loans_of_filter cid) 1000 (Db.loans db) in
    credit_score <- calculate_credit_score customer loans ;;
    let suggested_rate := determine_interest_rate credit_score in
    emi <- calculate_emi loan_amount interest_rate tenure ;;
    let total_emi :=
      Py.sum (map (fun loan => Py.get (Loan.monthly_repayment loan) 0) loans) + emi in
    monthly_salary <- Py.getitem "monthly_salary" (Customer.monthly_salary customer) ;;
    emi_to_income_ratio <- Py.truediv total_emi monthly_salary ;;
    current_debt <- Py.getitem "current_debt" (Customer.current_debt customer) ;;
    let new_debt := current_debt + loan_amount in
    decision <-
      (if (credit_score <? 500)%Z then Ok (false, interest_rate)
       else if Py.gtb emi_to_income_ratio (1 # 2) then Ok (false, interest_rate)
       else
         approved_limit <- Py.getitem "approved_limit" (Customer.approved_limit customer) ;;
         if Py.gtb new_debt approved_limit then Ok (false, interest_rate)
         else if (credit_score <? 650)%Z
              then Ok (true, Py.max interest_rate suggested_rate)
              else Ok (true, interest_rate)) ;;
    let approval := fst decision in
    let corrected_interest_rate := snd decision in
    monthly_installment <- calculate_emi loan_amount corrected_interest_rate tenure ;;
    Ok (EligibilityResponse.mk cid approval corrected_interest_rate
          corrected_interest_rate tenure monthly_installment credit_score)
  end.

(** [POST /create-loan]. *)
Definition create_loan (db : Db.t) (loan_data : LoanRequest.t)
    (uuid : string) (start_now created_now : Z) : Db.t * result LoanResponse.t :=
  let cid := LoanRequest.customer_id loan_data in
  let loan_amount := LoanRequest.loan_amount loan_data in
  let interest_rate := LoanRequest.interest_rate loan_data in
  let tenure := LoanRequest.tenure loan_data in
  match Db.find_one (customer_filter cid) (Db.customers db) with
  | None => (db, Raise (HTTPException 404 "Customer not found"))
  | Some customer =>
    let loans := Db.find_to_list (loans_of_filter cid) 1000 (Db.loans db) in
    let checked :=
      credit_score <- calculate_credit_score customer loans ;;
      emi <- calculate_emi loan_amount interest_rate tenure ;;
      let total_emi :=
        Py.sum (map (fun loan => Py.get (Loan.monthly_repayment loan) 0) loans) + emi in
      monthly_salary <- Py.getitem "monthly_salary" (Customer.monthly_salary customer) ;;
      emi_to_income_ratio <- Py.truediv total_emi monthly_salary ;;
      current_debt <- Py.getitem "current_debt" (Customer.current_debt customer) ;;
      let new_debt := current_debt + loan_amount in
      rejected <-
        (if (credit_score <? 500)%Z then Ok true
         else if Py.gtb emi_to_income_ratio (1 # 2) then Ok true
         else
           approved_limit <- Py.getitem "approved_limit" (Customer.approved_limit customer) ;;
           Ok (Py.gtb new_debt approved_limit)) ;;
      if rejected
      then Raise (HTTPException 400
             "Loan not approved - Customer does not meet eligibility criteria")
      else Ok emi in
    match checked with
    | Raise e => (db, Raise e)
    | Ok emi =>
      let loan_id := uuid in
      let start_date := start_now in
      let end_date := (start_date + tenure * 30 * seconds_per_day)%Z in
      let loan_doc :=
        Loan.mk loan_id cid (Some loan_amount) (Some tenure) interest_rate
          (Some emi) (Some 0%Z) start_date end_date "active" created_now in
      (Db.mk
         (Db.update_one (customer_filter cid) (inc_current_debt loan_amount)
            (Db.customers db))
         (Db.insert_one loan_doc (Db.loans db))
         (Db.loan_payments db),
       Ok (LoanResponse.mk loan_id cid true "Loan approved successfully" emi))
    end
  end.

(** [POST /make-payment/{loan_id}]: the body of the [try] runs after the
    payment is stored, so an exception in it is reported as status 400
    while the payment stays recorded. *)
Definition make_payment (db : Db.t) (loan_id : string) (payment_amount : Q)
    (paid_now answered_now : Z) : Db.t * result PaymentResponse.t :=
  match Db.find_one (loan_filter loan_id) (Db.loans db) with
  | None => (db, Raise (HTTPException 404 "Loan not found"))
  | Some loan =>
    let payment_doc := Payment.mk loan_id payment_amount paid_now in
    let payments := Db.insert_one payment_doc (Db.loan_payments db) in
    match Py.getitem "monthly_repayment" (Loan.monthly_repayment loan) with
    | Raise _ =>
      (Db.mk (Db.customers db) (Db.loans db) payments,
       Raise (HTTPException 400 "Payment recording failed"))
    | Ok monthly_repayment =>
      let loans :=
        if Py.ltb (Qabs (payment_amount - monthly_repayment)) (1 # 100)
        then Db.update_one (loan_filter loan_id) (inc_emis_paid_on_time 1)
               (Db.loans db)
        else Db.loans db in
      (Db.mk (Db.customers db) loans payments,
       Ok (PaymentResponse.mk "Payment recorded successfully" loan_id
             payment_amount (answered_now / seconds_per_day)%Z))
    end
  end.

(** ** Complete documents

    Every handler that stores a customer or a loan writes all the numeric
    keys; a store is complete when all its documents carry them. *)

Definition complete_customer (c : Customer.t) : Prop :=
  Customer.monthly_salary c <> None
  /\ Customer.approved_limit c <> None
  /\ Customer.current_debt c <> None.

Definition complete_loan (l : Loan.t) : Prop :=
  Loan.loan_amount l <> None
  /\ Loan.tenure l <> None
  /\ Loan.monthly_repayment l <> None
  /\ Loan.emis_paid_on_time l <> None.

Definition complete_store (db : Db.t) : Prop :=
  Forall complete_customer (Db.customers db)
  /\ Forall complete_loan (Db.loans db).

(** ** Sample stores and requests *)

Definition empty_store : Db.t := Db.mk [] [] [].

(** A registration with a salary of 0.01, whose approved limit rounds
    to 0, followed by a loan of amount 0 at rate 0 for one month. *)
Definition tiny_salary : CustomerCreate.t :=
  CustomerCreate.mk "Ada" "Low" None (1 # 100).

Definition zero_loan : LoanRequest.t := LoanRequest.mk "u1" 0 0 1.

Definition tiny_store : Db.t :=
  fst (register_customer empty_store tiny_salary "u1" 0).

Definition tiny_store_with_loan : Db.t :=
  fst (create_loan tiny_store zero_loan "l1" 10 10).

(** A customer document whose approved limit is 0, one without the key,
    and a loan of theirs. *)
Definition zero_limit_customer : Customer.t :=
  Customer.mk "u2" "Bo" "Nil" None (Some 3000) (Some 0) (Some 0) 0.

Definition no_limit_customer : Customer.t :=
  Customer.mk "u2" "Bo" "Nil" None (Some 3000) None (Some 0) 0.

Definition old_loan : Loan.t :=
  Loan.mk "l2" "u2" (Some 1200) (Some 12%Z) 0 (Some 100) (Some 12%Z) 0
    (12 * 30 * seconds_per_day) "closed" 0.

(** A customer registered with a salary of 50000, and requests of theirs:
    the example of the specification, one with tenure 0 and one with a
    negative amount. *)
Definition regular_salary : CustomerCreate.t :=
  CustomerCreate.mk "Eve" "Fair" None 50000.

Definition regular_store : Db.t :=
  fst (register_customer empty_store regular_salary "u4" 0).

Definition first_loan : LoanRequest.t := LoanRequest.mk "u4" 100000 10 12.
Definition zero_tenure_loan : LoanRequest.t := LoanRequest.mk "u4" 100000 10 0.
Definition negative_loan : LoanRequest.t := LoanRequest.mk "u4" (-100000) 10 12.

Definition negative_salary : CustomerCreate.t :=
  CustomerCreate.mk "Max" "Debt" None (-1000).

(** A customer with 1001 stored loans: a thousand settled ones without
    installment, stored first, and a last one with an installment of
    40000. *)
Definition settled_loan : Loan.t :=
  Loan.mk "l6" "u6" (Some 0) (Some 12%Z) 0 (Some 0) (Some 12%Z) 0 0 "closed" 0.

Definition heavy_loan : Loan.t :=
  Loan.mk "l7" "u6" (Some 1000) (Some 12%Z) 10 (Some 40000) (Some 12%Z) 0 0
    "active" 0.

Definition crowded_customer : Customer.t :=
  Customer.mk "u6" "Cy" "Many" None (Some 50000) (Some 1800000) (Some 1000) 0.

Definition crowded_store : Db.t :=
  Db.mk [crowded_customer] (repeat settled_loan 1000 ++ [heavy_loan]) [].

Definition small_loan : LoanRequest.t := LoanRequest.mk "u6" 1200 0 12.

(** The store after the first loan of the registered customer, whose
    installment is 8791.59. *)
Definition lent_store : Db.t :=
  fst (create_loan regular_store first_loan "l8" 7 7).

(** The fields of a stored loan that the scorer reads. *)
Definition scored_fields (loan : Loan.t) : option Z * option Z * option Q :=
  (Loan.tenure loan, Loan.emis_paid_on_time loan, Loan.loan_amount loan).

(** Two histories with the same scored fields, in different order and
    with different other fields. *)
Definition active_loan : Loan.t :=
  Loan.mk "l9" "u2" (Some 6000) (Some 24%Z) 9 (Some 275) (Some 3%Z) 50
    (50 + 24 * 30 * seconds_per_day) "active" 50.

Definition old_loan_rewritten : Loan.t :=
  Loan.mk "x2" "u2" (Some 1200) (Some 12%Z) 15 (Some 0) (Some 12%Z) 99 99
    "active" 99.

Definition active_loan_rewritten : Loan.t :=
  Loan.mk "x9" "u2" (Some 6000) (Some 24%Z) 0 (Some 1) (Some 3%Z) 1 2
    "closed" 3.

Definition renamed_customer : Customer.t :=
  Customer.mk "zz" "No" "Body" (Some "555") (Some 3000) None (Some 0) 77.

(** ** Read-only handlers *)

Module CustomerProfile.
Record t : Type := mk {
  customer_id : string;
  first_name : string;
  last_name : string;
  phone_number : option string;
  monthly_salary : Q;
  approved_limit : Q;
  current_debt : Q;
  credit_score : Z;
  total_loans : nat;
  active_loans : nat
}.
End CustomerProfile.

Module LoanSummary.
Record t : Type := mk {
  loan_id : string;
  loan_amount : Q;
  interest_rate : Q;
  monthly_installment : Q;
  repayments_left : Z;
  status : string
}.
End LoanSummary.

Module LoanView.
Record t : Type := mk {
  loan_id : string;
  customer_id : string;
  customer_first_name : string;
  customer_last_name : string;
  loan_amount : Q;
  interest_rate : Q;
  monthly_installment : Q;
  tenure : Z;
  emis_paid_on_time : Z;
  start_date : Z;
  end_date : Z;
  status : string
}.
End LoanView.

Module Stats.
Record t : Type := mk {
  total_customers : nat;
  total_loans : nat;
  total_loan_amount : Q;
  average_payment_rate : Q;
  default_rate : Q
}.

(** The handler has one way to fail: arithmetic on the [None] that an
    average over no numeric value comes back as. *)
Inductive outcome : Type :=
| Returned (stats : t)
| TypeError.
End Stats.

(** [GET /get-customer/{customer_id}]. *)
Definition get_customer (db : Db.t) (customer_id : string)
  : result CustomerProfile.t :=
  match Db.find_one (customer_filter customer_id) (Db.customers db) with
  | None => Raise (HTTPException 404 "Customer not found")
  | Some customer =>
    let loans := Db.find_to_list (loans_of_filter customer_id) 1000 (Db.loans db) in
    credit_score <- calculate_credit_score customer loans ;;
    monthly_salary <- Py.getitem "monthly_salary" (Customer.monthly_salary customer) ;;
    approved_limit <- Py.getitem "approved_limit" (Customer.approved_limit customer) ;;
    current_debt <- Py.getitem "current_debt" (Customer.current_debt customer) ;;
    Ok (CustomerProfile.mk (Customer.customer_id customer)
          (Customer.first_name customer) (Customer.last_name customer)
          (Customer.phone_number customer)
          monthly_salary approved_limit current_debt credit_score
          (List.length loans)
          (List.length
             (filter (fun loan => String.eqb (Loan.status loan) "active") loans)))
  end.

(** One entry of [GET /view-loans/{customer_id}]. *)
Definition format_loan (loan : Loan.t) : result LoanSummary.t :=
  loan_amount <- Py.getitem "loan_amount" (Loan.loan_amount loan) ;;
  monthly_repayment <- Py.getitem "monthly_repayment" (Loan.monthly_repayment loan) ;;
  tenure <- Py.getitem "tenure" (Loan.tenure loan) ;;
  emis_paid_on_time <- Py.getitem "emis_paid_on_time" (Loan.emis_paid_on_time loan) ;;
  Ok (LoanSummary.mk (Loan.loan_id loan) loan_amount (Loan.interest_rate loan)
        monthly_repayment (tenure - emis_paid_on_time)%Z (Loan.status loan)).

(** The loop that builds [formatted_loans]: the first loan that raises
    ends it. *)
Fixpoint format_loans (loans : list Loan.t) : result (list LoanSummary.t) :=
  match loans with
  | [] => Ok []
  | loan :: rest =>
    entry <- format_loan loan ;;
    entries <- format_loans rest ;;
    Ok (entry :: entries)
  end.

(** [GET /view-loans/{customer_id}]. *)
Definition view_customer_loans (db : Db.t) (customer_id : string)
  : result (list LoanSummary.t) :=
  format_loans (Db.find_to_list (loans_of_filter customer_id) 1000 (Db.loans db)).

(** The aggregation of [GET /view-loan/{loan_id}]: [$match] on the loan
    id, [$lookup] of the customers with the loan's customer id, [$unwind]
    (one output per loan and customer, none for a loan without customer). *)
Definition loan_with_customer (db : Db.t) (loan_id : string)
  : list (Loan.t * Customer.t) :=
  flat_map
    (fun loan =>
       map (fun customer => (loan, customer))
           (filter (customer_filter (Loan.customer_id loan)) (Db.customers db)))
    (filter (loan_filter loan_id) (Db.loans db)).

(** [GET /view-loan/{loan_id}]. *)
Definition view_loan (db : Db.t) (loan_id : string) : result LoanView.t :=
  match firstn 1 (loan_with_customer db loan_id) with
  | [] => Raise (HTTPException 404 "Loan not found")
  | (loan, customer) :: _ =>
    loan_amount <- Py.getitem "loan_amount" (Loan.loan_amount loan) ;;
    monthly_repayment <- Py.getitem "monthly_repayment" (Loan.monthly_repayment loan) ;;
    tenure <- Py.getitem "tenure" (Loan.tenure loan) ;;
    emis_paid_on_time <- Py.getitem "emis_paid_on_time" (Loan.emis_paid_on_time loan) ;;
    Ok (LoanView.mk (Loan.loan_id loan) (Loan.customer_id loan)
          (Customer.first_name customer) (Customer.last_name customer)
          loan_amount (Loan.interest_rate loan) monthly_repayment tenure
          emis_paid_on_time (Loan.start_date loan) (Loan.end_date loan)
          (Loan.status loan))
  end.

(** The payment-rate pipeline of [GET /get-stats]: [$match] keeps the
    loans with a tenure above 0; [$divide] gives null when
    [emis_paid_on_time] is absent; [$avg] is over the numeric values and
    is null when there is none.  The result has a group only when a loan
    matched. *)
Definition payment_rates (loans : list Loan.t) : list (option Q) :=
  flat_map
    (fun loan =>
       match Loan.tenure loan with
       | Some tenure =>
         if (tenure >? 0)%Z
         then [match Loan.emis_paid_on_time loan with
               | Some paid => Some (inject_Z paid / inject_Z tenure)
               | None => None
               end]
         else []
       | None => []
       end)
    loans.

Definition numeric_values (values : list (option Q)) : list Q :=
  flat_map (fun v => match v with Some q => [q] | None => [] end) values.

Definition mongo_avg (values : list (option Q)) : option Q :=
  match numeric_values values with
  | [] => None
  | q :: qs =>
    Some (fold_left Qplus (q :: qs) 0 / inject_Z (Z.of_nat (List.length (q :: qs))))
  end.

(** [GET /get-stats]. *)
Definition get_stats (db : Db.t) : Stats.outcome :=
  let customer_count := List.length (Db.customers db) in
  let total_loans := List.length (Db.loans db) in
  let total_amount :=
    fold_left Qplus (numeric_values (map Loan.loan_amount (Db.loans db))) 0 in
  let avg_payment_rate :=
    match payment_rates (Db.loans db) with
    | [] => Some 0
    | rates => mongo_avg rates
    end in
  match avg_payment_rate with
  | None => Stats.TypeError
  | Some avg =>
    Stats.Returned
      (Stats.mk customer_count total_loans total_amount (avg * 100)
         (Py.max 0 ((1 - avg) * 100)))
  end.

(** [find_column(df_columns, field_variations)] of the ingestion. *)
Definition find_column (df_columns field_variations : list string)
  : option string :=
  List.find (fun variation => existsb (String.eqb variation) df_columns)
    field_variations.

(** ** Histories of requests *)

(** The stores that the writing handlers produce from the empty one. *)
Inductive reachable : Db.t -> Prop :=
| reach_empty : reachable empty_store
| reach_register db data uuid now :
    reachable db -> reachable (fst (register_customer db data uuid now))
| reach_create_loan db data uuid t1 t2 :
    reachable db -> reachable (fst (create_loan db data uuid t1 t2))
| reach_make_payment db loan_id amount t1 t2 :
    reachable db -> reachable (fst (make_payment db loan_id amount t1 t2)).

(** [n] payments of the same amount for a loan, one after the other. *)
Fixpoint pay_times (n : nat) (db : Db.t) (loan_id : string) (amount : Q) : Db.t :=
  match n with
  | O => db
  | S k => pay_times k (fst (make_payment db loan_id amount 0 0)) loan_id amount
  end.

(** A customer whose stored debt does not exceed the stored limit. *)
Definition within_limit (c : Customer.t) : Prop :=
  match Customer.current_debt c, Customer.approved_limit c with
  | Some debt, Some limit => debt <= limit
  | _, _ => True
  end.

(** * Properties *)

(** ** Arithmetic helpers *)

Section Arithmetic.

Lemma ltb_lt (a b : Q) : Py.ltb a b = true <-> a < b.
Proof.
  unfold Py.ltb. rewrite negb_true_iff.
  split; intro H.
  - apply Qnot_le_lt. intro Hle. apply Qle_bool_iff in Hle. congruence.
  - destruct (Qle_bool b a) eqn:E; [|reflexivity].
    apply Qle_bool_iff in E. exfalso. exact (Qlt_not_le _ _ H E).
Qed.

Lemma ltb_ge (a b : Q) : Py.ltb a b = false <-> b <= a.
Proof.
  unfold Py.ltb. rewrite negb_false_iff. apply Qle_bool_iff.
Qed.

Lemma gtb_gt (a b : Q) : Py.gtb a b = true <-> b < a.
Proof. unfold Py.gtb. apply ltb_lt. Qed.

Lemma gtb_le (a b : Q) : Py.gtb a b = false <-> a <= b.
Proof. unfold Py.gtb. apply ltb_ge. Qed.

Lemma truediv_ok (a b : Q) : ~ b == 0 -> Py.truediv a b = Ok (a / b).
Proof.
  intro H. unfold Py.truediv.
  destruct (Qeq_bool b 0) eqn:E; [|reflexivity].
  apply Qeq_bool_iff in E. contradiction.
Qed.

Lemma truediv_raise (a b : Q) : b == 0 -> Py.truediv a b = Raise ZeroDivisionError.
Proof.
  intro H. unfold Py.truediv. apply Qeq_bool_iff in H. now rewrite H.
Qed.

Lemma truediv_inv (a b q : Q) : Py.truediv a b = Ok q -> ~ b == 0 /\ q = a / b.
Proof.
  unfold Py.truediv. destruct (Qeq_bool b 0) eqn:E; [discriminate|].
  intro H. injection H as <-. split; [|reflexivity].
  now apply Qeq_bool_neq.
Qed.

Lemma truediv_cases (a b : Q) :
  (b == 0 /\ Py.truediv a b = Raise ZeroDivisionError)
  \/ (~ b == 0 /\ Py.truediv a b = Ok (a / b)).
Proof.
  destruct (Qeq_dec b 0) as [H|H].
  - left. split; [assumption|]. now apply truediv_raise.
  - right. split; [assumption|]. now apply truediv_ok.
Qed.

Lemma inject_Z_nonzero (z : Z) : z <> 0%Z -> ~ inject_Z z == 0.
Proof.
  intros Hz H. apply Hz. unfold Qeq in H. simpl in H. lia.
Qed.

(** A base above 1 raised to a nonzero integer power is not 1. *)
Lemma Qpower_above_1_neq_1 (b : Q) (n : Z) :
  1 < b -> n <> 0%Z -> ~ b ^ n == 1.
Proof.
  intros Hb Hn. destruct n as [|p|p]; [contradiction| |].
  - intro H. pose proof (Qpower_1_lt_pos b p Hb) as Hlt.
    rewrite H in Hlt. exact (Qlt_irrefl _ Hlt).
  - intro H. pose proof (Qpower_1_lt_pos b p Hb) as Hlt.
    change (Z.neg p) with (- Z.pos p)%Z in H.
    rewrite Qpower_opp in H.
    assert (Hne : ~ b ^ Z.pos p == 0).
    { intro H0. rewrite H0 in Hlt. discriminate Hlt. }
    assert (H1 : b ^ Z.pos p == 1).
    { rewrite <- (Qmult_inv_r _ Hne). rewrite H. ring. }
    rewrite H1 in Hlt. exact (Qlt_irrefl _ Hlt).
Qed.

End Arithmetic.

(** ** The credit scorer *)

Section CreditScore.

Variable customer : Customer.t.

(** The payment-history step never raises: its division is guarded. *)
Lemma payment_ratio_defined (paid total : Z) :
  exists r,
    (if (total >? 0)%Z then Py.truediv (inject_Z paid) (inject_Z total) else Ok 0)
    = Ok r.
Proof.
  destruct (total >? 0)%Z eqn:E.
  - eexists. apply truediv_ok. apply inject_Z_nonzero. lia.
  - now eexists.
Qed.

(** Neither does the income step. *)
Lemma income_ratio_defined (salary avg : Q) :
  exists r,
    (if Py.gtb avg 0 then Py.truediv salary avg else Ok 0) = Ok r.
Proof.
  destruct (Py.gtb avg 0) eqn:E.
  - eexists. apply truediv_ok. apply gtb_gt in E.
    intro H. rewrite H in E. exact (Qlt_irrefl _ E).
  - now eexists.
Qed.

Lemma average_defined (total : Q) (l : Loan.t) (ls : list Loan.t) :
  Py.truediv total (inject_Z (Z.of_nat (List.length (l :: ls))))
  = Ok (total / inject_Z (Z.of_nat (List.length (l :: ls)))).
Proof.
  apply truediv_ok. apply inject_Z_nonzero. simpl List.length. lia.
Qed.

(** With a nonempty history the scorer raises exactly when the stored
    approved limit is zero, and otherwise returns a clamped score. *)
Lemma calculate_credit_score_nonempty (l : Loan.t) (ls : list Loan.t) :
  let limit := Py.get (Customer.approved_limit customer) 1 in
  (limit == 0 ->
   calculate_credit_score customer (l :: ls) = Raise ZeroDivisionError)
  /\ (~ limit == 0 ->
      exists s, calculate_credit_score customer (l :: ls) = Ok s
                /\ (300 <= s <= 850)%Z).
Proof.
  intro limit. unfold calculate_credit_score.
  destruct (payment_ratio_defined
              (Py.sumZ (map (fun loan => Py.get (Loan.emis_paid_on_time loan) 0%Z) (l :: ls)))
              (Py.sumZ (map (fun loan => Py.get (Loan.tenure loan) 0%Z) (l :: ls))))
    as [pr Hpr].
  cbv zeta. rewrite Hpr. cbn [bind].
  split; intro Hl.
  - fold limit. rewrite (truediv_raise _ _ Hl). reflexivity.
  - fold limit. rewrite (truediv_ok _ _ Hl). cbn [bind].
    rewrite average_defined. cbn [bind].
    match goal with
    | |- context [if Py.gtb ?avg 0 then Py.truediv ?sal ?avg else Ok 0] =>
        destruct (income_ratio_defined sal avg) as [ir Hir]; rewrite Hir
    end.
    cbn [bind]. eexists. split; [reflexivity|]. lia.
Qed.

Lemma calculate_credit_score_empty : calculate_credit_score customer [] = Ok 500%Z.
Proof. reflexivity. Qed.

(** Whatever the scorer returns lies between 300 and 850. *)
Lemma calculate_credit_score_range (loans : list Loan.t) (s : Z) :
  calculate_credit_score customer loans = Ok s -> (300 <= s <= 850)%Z.
Proof.
  destruct loans as [|l ls].
  - intro H. injection H as <-. lia.
  - destruct (calculate_credit_score_nonempty l ls) as [Hz Hnz].
    destruct (Qeq_dec (Py.get (Customer.approved_limit customer) 1) 0) as [E|E].
    + rewrite (Hz E). discriminate.
    + destruct (Hnz E) as [s' [Hs' Hr]]. rewrite Hs'. intro H.
      injection H as <-. exact Hr.
Qed.

(** An absent [approved_limit] key, not a stored zero, is what the
    default of [customer.get('approved_limit', 1)] covers. *)
Lemma calculate_credit_score_absent_limit (loans : list Loan.t) :
  Customer.approved_limit customer = None ->
  exists s, calculate_credit_score customer loans = Ok s.
Proof.
  intro Hn. destruct loans as [|l ls].
  - now eexists.
  - destruct (calculate_credit_score_nonempty l ls) as [_ Hnz].
    rewrite Hn in Hnz. simpl in Hnz.
    destruct Hnz as [s [Hs _]]; [discriminate|]. now exists s.
Qed.

End CreditScore.


(** ** Claims about the pure functions *)

(** C4 (code defect).  For the customer [zero_limit_customer], whose stored
    approved limit is 0, and a history of one loan, the scorer raises
    [ZeroDivisionError]: the default of [customer.get('approved_limit', 1)]
    is used for an absent key only, as the same profile without the key
    shows, where the denominator is 1 and the score is 850. *)
Theorem credit_score_zero_limit_raises :
  calculate_credit_score zero_limit_customer [old_loan] = Raise ZeroDivisionError
  /\ calculate_credit_score no_limit_customer [old_loan] = Ok 850%Z.
Proof. split; reflexivity. Qed.

(** C6 (code defect).  Registering a salary of 0.01 and then creating a
    loan of amount 0 both succeed and leave a customer with approved limit
    0 and one loan; for that customer the scorer returns no score at all,
    so none in [300, 850].  An empty history still scores 500. *)
Theorem credit_score_not_total :
  (exists r, snd (create_loan tiny_store zero_loan "l1" 10 10) = Ok r)
  /\ (exists c,
        Db.find_one (customer_filter "u1") (Db.customers tiny_store_with_loan) = Some c
        /\ Customer.approved_limit c = Some 0
        /\ calculate_credit_score c
             (Db.find_to_list (loans_of_filter "u1") 1000 (Db.loans tiny_store_with_loan))
           = Raise ZeroDivisionError
        /\ calculate_credit_score c [] = Ok 500%Z).
Proof.
  split.
  - eexists. reflexivity.
  - eexists. repeat split; reflexivity.
Qed.

(** In the zero-rate branch the installment is the plain quotient. *)
Lemma calculate_emi_zero_rate (principal : Q) (tenure : Z) :
  tenure <> 0%Z ->
  calculate_emi principal 0 tenure = Ok (principal / inject_Z tenure).
Proof.
  intro Hn. unfold calculate_emi. simpl Qeq_bool.
  apply truediv_ok. now apply inject_Z_nonzero.
Qed.

(** The annuity branch returns a value rounded to two decimals. *)
Lemma calculate_emi_annuity_rounded (principal rate emi : Q) (tenure : Z) :
  ~ rate == 0 ->
  calculate_emi principal rate tenure = Ok emi ->
  exists x, emi = Py.round2 x.
Proof.
  intros Hr. unfold calculate_emi.
  destruct (Qeq_bool (rate / (12 * 100)) 0) eqn:E.
  - apply Qeq_bool_iff in E. exfalso. apply Hr.
    rewrite <- (Qmult_div_r rate (12 * 100)); [|discriminate].
    unfold Qdiv in E. rewrite E. ring.
  - destruct (Py.pow _ tenure) as [pw|]; [|discriminate]. cbn [bind].
    destruct (Py.truediv _ _) as [x|]; [|discriminate]. cbn [bind].
    intro H. injection H as <-. now exists x.
Qed.

Lemma round2_two_decimals (x : Q) :
  Py.round2 x * 100 == inject_Z (Py.round (x * 100)).
Proof.
  unfold Py.round2. field.
Qed.

(** C5 (code defect).  For principal 100, rate 0 and tenure 3 the
    calculator returns 100/3, which is not 100/3 rounded to two decimals
    (33.33): the zero-rate branch returns before the rounding. *)
Theorem calculate_emi_zero_rate_unrounded :
  calculate_emi 100 0 3 = Ok (100 # 3)
  /\ Py.round2 (100 # 3) == 3333 # 100
  /\ ~ (100 # 3 == Py.round2 (100 # 3)).
Proof.
  split; [reflexivity|]. split; [reflexivity|]. intro H. discriminate H.
Qed.

(** C7.  The rate policy: 8 from 750, 10 on [650, 750), 12 on [550, 650),
    15 below 550; the bounds 750, 650 and 550 belong to the band above
    them; and the rate never increases with the score. *)
Theorem determine_interest_rate_bands (s t : Z) :
  ((750 <= s)%Z -> determine_interest_rate s = 8)
  /\ ((650 <= s < 750)%Z -> determine_interest_rate s = 10)
  /\ ((550 <= s < 650)%Z -> determine_interest_rate s = 12)
  /\ ((s < 550)%Z -> determine_interest_rate s = 15)
  /\ determine_interest_rate 750 = 8
  /\ determine_interest_rate 650 = 10
  /\ determine_interest_rate 550 = 12
  /\ ((s <= t)%Z -> determine_interest_rate t <= determine_interest_rate s).
Proof.
  unfold determine_interest_rate.
  repeat split; try reflexivity; intros;
    repeat match goal with
           | |- context [(?a >=? ?b)%Z] =>
               destruct (Z.geb_spec a b); try lia
           end;
    try reflexivity; try (intro Hc; discriminate Hc).
Qed.

Lemma determine_interest_rate_bands_witness :
  determine_interest_rate 700 = 10
  /\ determine_interest_rate 800 <= determine_interest_rate 700.
Proof.
  pose proof (determine_interest_rate_bands 700 800) as H.
  destruct H as (_ & H10 & _ & _ & _ & _ & _ & Hmono).
  split; [apply H10; lia | apply Hmono; lia].
Defined.

(** ** Claims about input checking *)

(** The calculator raises on a tenure of 0 whatever the other inputs. *)
Lemma calculate_emi_zero_tenure (principal rate : Q) :
  calculate_emi principal rate 0 = Raise ZeroDivisionError.
Proof.
  unfold calculate_emi.
  destruct (Qeq_bool (rate / (12 * 100)) 0); [reflexivity|].
  unfold Py.pow. rewrite andb_false_r. reflexivity.
Qed.




(** ** The eligibility cascade *)

Lemma calculate_emi_tenure_nonzero (principal rate emi : Q) (tenure : Z) :
  calculate_emi principal rate tenure = Ok emi -> tenure <> 0%Z.
Proof.
  intros H Hz. subst tenure. rewrite calculate_emi_zero_tenure in H.
  discriminate H.
Qed.

(** At a positive rate the calculator returns for every nonzero tenure. *)
Lemma calculate_emi_positive_rate (principal rate : Q) (tenure : Z) :
  0 < rate -> tenure <> 0%Z ->
  exists emi, calculate_emi principal rate tenure = Ok emi.
Proof.
  intros Hr Hn. unfold calculate_emi.
  set (i := rate / (12 * 100)).
  assert (Hi : 0 < i).
  { unfold i. apply Qlt_shift_div_l; [reflexivity|].
    now rewrite Qmult_0_l. }
  assert (Hb : 1 < 1 + i).
  { rewrite <- (Qplus_0_r 1) at 1. apply Qplus_lt_r. exact Hi. }
  destruct (Qeq_bool i 0) eqn:E.
  - apply Qeq_bool_iff in E. rewrite E in Hi. discriminate Hi.
  - unfold Py.pow.
    destruct (Qeq_bool (1 + i) 0) eqn:E0.
    + apply Qeq_bool_iff in E0. rewrite E0 in Hb. discriminate Hb.
    + cbn [andb bind]. rewrite truediv_ok; [cbn [bind]; now eexists|].
      intro H. apply (Qpower_above_1_neq_1 (1 + i) tenure Hb Hn).
      lra.
Qed.

Lemma determine_interest_rate_positive (s : Z) : 0 < determine_interest_rate s.
Proof.
  unfold determine_interest_rate.
  destruct (s >=? 750)%Z; [reflexivity|].
  destruct (s >=? 650)%Z; [reflexivity|].
  destruct (s >=? 550)%Z; reflexivity.
Qed.

(** Python's [max] returns one of its arguments, and an upper bound of
    both. *)
Lemma max_cases (a b : Q) :
  (Py.max a b = a /\ b <= a) \/ (Py.max a b = b /\ a < b).
Proof.
  unfold Py.max. destruct (Py.ltb a b) eqn:E.
  - right. split; [reflexivity|]. now apply ltb_lt.
  - left. split; [reflexivity|]. now apply ltb_ge.
Qed.

Lemma max_upper_bound (a b : Q) : a <= Py.max a b /\ b <= Py.max a b.
Proof.
  destruct (max_cases a b) as [[-> H]|[-> H]]; split;
    solve [apply Qle_refl | assumption | now apply Qlt_le_weak].
Qed.

(** The installment at the corrected rate is defined whenever the trial
    installment is. *)
Lemma corrected_installment_defined (principal rate emi : Q) (tenure s : Z) :
  calculate_emi principal rate tenure = Ok emi ->
  exists e,
    calculate_emi principal (Py.max rate (determine_interest_rate s)) tenure = Ok e.
Proof.
  intro H. destruct (max_cases rate (determine_interest_rate s)) as [[-> _]|[-> _]].
  - now exists emi.
  - apply calculate_emi_positive_rate.
    + apply determine_interest_rate_positive.
    + exact (calculate_emi_tenure_nonzero _ _ _ _ H).
Qed.




(** ** Loan creation *)

(** Loan creation in terms of the three reject rules, under the conditions
    that make score, trial installment and ratio defined. *)
Lemma create_loan_decision
    (db : Db.t) (data : LoanRequest.t) (uuid : string) (t1 t2 : Z)
    (customer : Customer.t) (score : Z) (emi salary debt limit : Q) :
  let cid := LoanRequest.customer_id data in
  let amount := LoanRequest.loan_amount data in
  let rate := LoanRequest.interest_rate data in
  let tenure := LoanRequest.tenure data in
  let loans := Db.find_to_list (loans_of_filter cid) 1000 (Db.loans db) in
  let ratio :=
    (Py.sum (map (fun loan => Py.get (Loan.monthly_repayment loan) 0) loans) + emi)
    / salary in
  let new_debt := debt + amount in
  Db.find_one (customer_filter cid) (Db.customers db) = Some customer ->
  calculate_credit_score customer loans = Ok score ->
  calculate_emi amount rate tenure = Ok emi ->
  Customer.monthly_salary customer = Some salary ->
  ~ salary == 0 ->
  Customer.current_debt customer = Some debt ->
  Customer.approved_limit customer = Some limit ->
  ((score < 500)%Z \/ 1 # 2 < ratio \/ limit < new_debt ->
   create_loan db data uuid t1 t2
   = (db, Raise (HTTPException 400
        "Loan not approved - Customer does not meet eligibility criteria")))
  /\ ((500 <= score)%Z /\ ratio <= 1 # 2 /\ new_debt <= limit ->
      exists db',
        create_loan db data uuid t1 t2
        = (db', Ok (LoanResponse.mk uuid cid true "Loan approved successfully" emi))
        /\ Db.loans db'
           = (Db.loans db
                ++ [Loan.mk uuid cid (Some amount) (Some tenure) rate (Some emi)
                      (Some 0%Z) t1 (t1 + tenure * 30 * seconds_per_day)%Z
                      "active" t2])%list).
Proof.
  intros cid amount rate tenure loans ratio new_debt
         Hfind Hscore Hemi Hsal Hsal0 Hdebt Hlim.
  unfold create_loan. fold cid amount rate tenure.
  rewrite Hfind. fold loans. rewrite Hscore. cbn [bind].
  rewrite Hemi. cbn [bind]. rewrite Hsal. cbn [Py.getitem bind].
  rewrite (truediv_ok _ _ Hsal0). cbn [bind].
  rewrite Hdebt. cbn [Py.getitem bind]. fold ratio new_debt.
  destruct (score <? 500)%Z eqn:E500.
  { apply Z.ltb_lt in E500. cbn [bind]. split; [reflexivity|].
    intros (H & _). lia. }
  apply Z.ltb_ge in E500.
  destruct (Py.gtb ratio (1 # 2)) eqn:Eratio.
  { apply gtb_gt in Eratio. cbn [bind]. split; [reflexivity|].
    intros (_ & H & _). exfalso. exact (Qlt_not_le _ _ Eratio H). }
  apply gtb_le in Eratio.
  rewrite Hlim. cbn [Py.getitem bind].
  destruct (Py.gtb new_debt limit) eqn:Edebt.
  { apply gtb_gt in Edebt. split; [reflexivity|].
    intros (_ & _ & H). exfalso. exact (Qlt_not_le _ _ Edebt H). }
  apply gtb_le in Edebt. split.
  - intros [H|[H|H]]; [lia| |]; exfalso; eapply Qlt_not_le; eassumption.
  - intros _. eexists. split; reflexivity.
Qed.



(** *** Updating one document *)

Section UpdateOne.

Context {A : Type}.
Variables (p : A -> bool) (f : A -> A).

(** When the update keeps a document under the filter, the first match
    afterwards is the update of the first match before. *)
Lemma find_one_update_one (docs : list A) :
  (forall d, p (f d) = p d) ->
  Db.find_one p (Db.update_one p f docs) = option_map f (Db.find_one p docs).
Proof.
  intro Hp. unfold Db.find_one.
  induction docs as [|d rest IH]; [reflexivity|].
  simpl. destruct (p d) eqn:E.
  - simpl. rewrite Hp, E. reflexivity.
  - simpl. rewrite E. exact IH.
Qed.

(** Documents that another, disjoint filter selects are not affected. *)
Lemma find_one_update_one_other (q : A -> bool) (docs : list A) :
  (forall d, p d = true -> q d = false) ->
  (forall d, q (f d) = q d) ->
  Db.find_one q (Db.update_one p f docs) = Db.find_one q docs.
Proof.
  intros Hpq Hq. unfold Db.find_one.
  induction docs as [|d rest IH]; [reflexivity|].
  simpl. destruct (p d) eqn:E.
  - simpl. rewrite Hq, (Hpq d E). reflexivity.
  - simpl. destruct (q d); [reflexivity|exact IH].
Qed.

Lemma update_one_length (docs : list A) :
  List.length (Db.update_one p f docs) = List.length docs.
Proof.
  induction docs as [|d rest IH]; [reflexivity|].
  simpl. destruct (p d); simpl; [reflexivity|now rewrite IH].
Qed.

End UpdateOne.

(** A successful creation found the customer and their stored debt, and
    leaves the store with the debt of the first matching customer
    incremented and one loan appended. *)
Lemma create_loan_success_inv
    (db db' : Db.t) (data : LoanRequest.t) (uuid : string) (t1 t2 : Z)
    (r : LoanResponse.t) :
  create_loan db data uuid t1 t2 = (db', Ok r) ->
  exists customer debt doc,
    Db.find_one (customer_filter (LoanRequest.customer_id data)) (Db.customers db)
    = Some customer
    /\ Customer.current_debt customer = Some debt
    /\ db' = Db.mk
               (Db.update_one (customer_filter (LoanRequest.customer_id data))
                  (inc_current_debt (LoanRequest.loan_amount data))
                  (Db.customers db))
               (Db.loans db ++ [doc])
               (Db.loan_payments db).
Proof.
  unfold create_loan.
  destruct (Db.find_one _ (Db.customers db)) as [customer|]; [|discriminate].
  destruct (calculate_credit_score customer _) as [score|]; [|discriminate].
  cbn [bind].
  destruct (calculate_emi _ _ _) as [emi|]; [|discriminate].
  cbn [bind].
  destruct (Customer.monthly_salary customer) as [salary|]; [|discriminate].
  cbn [bind Py.getitem].
  destruct (Py.truediv _ salary) as [ratio|]; [|discriminate].
  cbn [bind].
  destruct (Customer.current_debt customer) as [debt|] eqn:Hdebt; [|discriminate].
  cbn [bind Py.getitem].
  match goal with
  | |- context [bind ?c _] => destruct c as [[|]|]; cbn [bind]; try discriminate
  end.
  intro H. injection H as <- _.
  exists customer, debt. eexists. repeat split. exact Hdebt.
Qed.

(** C8.  When loan creation succeeds for amount A, the document of the
    owning customer afterwards has [current_debt] equal to the stored debt
    plus A and every other field as before; the documents found for other
    customer identifiers are the same as before, and so are the stored
    payments. *)
Theorem create_loan_increases_debt_only
    (db db' : Db.t) (data : LoanRequest.t) (uuid : string) (t1 t2 : Z)
    (r : LoanResponse.t) :
  let cid := LoanRequest.customer_id data in
  let amount := LoanRequest.loan_amount data in
  create_loan db data uuid t1 t2 = (db', Ok r) ->
  (exists before after debt,
      Db.find_one (customer_filter cid) (Db.customers db) = Some before
      /\ Db.find_one (customer_filter cid) (Db.customers db') = Some after
      /\ Customer.current_debt before = Some debt
      /\ Customer.current_debt after = Some (debt + amount)
      /\ Customer.customer_id after = Customer.customer_id before
      /\ Customer.first_name after = Customer.first_name before
      /\ Customer.last_name after = Customer.last_name before
      /\ Customer.phone_number after = Customer.phone_number before
      /\ Customer.monthly_salary after = Customer.monthly_salary before
      /\ Customer.approved_limit after = Customer.approved_limit before
      /\ Customer.created_at after = Customer.created_at before)
  /\ (forall other,
        other <> cid ->
        Db.find_one (customer_filter other) (Db.customers db')
        = Db.find_one (customer_filter other) (Db.customers db))
  /\ List.length (Db.customers db') = List.length (Db.customers db)
  /\ Db.loan_payments db' = Db.loan_payments db.
Proof.
  intros cid amount Hc.
  destruct (create_loan_success_inv _ _ _ _ _ _ _ Hc)
    as (customer & debt & doc & Hfind & Hdebt & ->).
  fold cid amount in Hfind |- *. cbn [Db.customers Db.loan_payments].
  split; [|split; [|split]].
  - exists customer, (inc_current_debt amount customer), debt.
    split; [exact Hfind|]. split.
    + rewrite find_one_update_one; [now rewrite Hfind|].
      intro d. reflexivity.
    + split; [exact Hdebt|]. cbn. rewrite Hdebt. repeat split.
  - intros other Hne. apply find_one_update_one_other.
    + intros d Hd. unfold customer_filter in *.
      apply String.eqb_eq in Hd. apply String.eqb_neq. congruence.
    + intro d. reflexivity.
  - apply update_one_length.
  - reflexivity.
Qed.

Lemma create_loan_increases_debt_only_witness :
  exists after,
    Db.find_one (customer_filter "u4")
      (Db.customers (fst (create_loan regular_store first_loan "l8" 7 7)))
    = Some after
    /\ Customer.current_debt after = Some (0 + 100000).
Proof.
  destruct (create_loan_increases_debt_only regular_store
              (fst (create_loan regular_store first_loan "l8" 7 7))
              first_loan "l8" 7 7
              (LoanResponse.mk "l8" "u4" true "Loan approved successfully"
                 (879159 # 100)))
    as [(before & after & debt & Hb & Ha & Hd & Hd' & _) _].
  - vm_compute. reflexivity.
  - exists after. split; [exact Ha|].
    vm_compute in Hb. injection Hb as <-. cbn in Hd. injection Hd as <-.
    exact Hd'.
Defined.

(** ** Completeness of the stored documents *)

Lemma Forall_update_one {A : Type} (P : A -> Prop) (p : A -> bool) (f : A -> A)
    (docs : list A) :
  (forall d, P d -> P (f d)) ->
  Forall P docs -> Forall P (Db.update_one p f docs).
Proof.
  intros Hf. induction 1 as [|d rest Hd Hrest IH]; simpl; [constructor|].
  destruct (p d); constructor; auto.
Qed.

Lemma Forall_insert_one {A : Type} (P : A -> Prop) (doc : A) (docs : list A) :
  P doc -> Forall P docs -> Forall P (Db.insert_one doc docs).
Proof.
  intros Hd Hall. unfold Db.insert_one. apply Forall_app. split; [assumption|].
  constructor; [assumption|constructor].
Qed.

Lemma inc_current_debt_complete (amount : Q) (c : Customer.t) :
  complete_customer c -> complete_customer (inc_current_debt amount c).
Proof.
  intros (Hs & Hl & Hd). repeat split; cbn; try assumption.
  destruct (Customer.current_debt c); discriminate.
Qed.

Lemma inc_emis_paid_on_time_complete (n : Z) (l : Loan.t) :
  complete_loan l -> complete_loan (inc_emis_paid_on_time n l).
Proof.
  intros (Ha & Ht & Hm & He). repeat split; cbn; try assumption.
  destruct (Loan.emis_paid_on_time l); discriminate.
Qed.

Lemma empty_store_complete : complete_store empty_store.
Proof. split; constructor. Qed.

Lemma register_customer_complete
    (db : Db.t) (data : CustomerCreate.t) (uuid : string) (now : Z) :
  complete_store db ->
  complete_store (fst (register_customer db data uuid now)).
Proof.
  intros [Hc Hl]. split; cbn; [|assumption].
  apply Forall_insert_one; [|assumption].
  repeat split; cbn; discriminate.
Qed.

Lemma create_loan_complete
    (db : Db.t) (data : LoanRequest.t) (uuid : string) (t1 t2 : Z) :
  complete_store db ->
  complete_store (fst (create_loan db data uuid t1 t2)).
Proof.
  intros [Hc Hl]. unfold create_loan.
  destruct (Db.find_one _ (Db.customers db)); [|split; assumption].
  match goal with
  | |- context [match ?c with Ok _ => _ | Raise _ => _ end] =>
      destruct c; [|split; assumption]
  end.
  split; cbn.
  - apply Forall_update_one; [|assumption].
    intros d. apply inc_current_debt_complete.
  - apply Forall_insert_one; [|assumption].
    repeat split; cbn; discriminate.
Qed.

Lemma make_payment_complete
    (db : Db.t) (loan_id : string) (amount : Q) (t1 t2 : Z) :
  complete_store db ->
  complete_store (fst (make_payment db loan_id amount t1 t2)).
Proof.
  intros [Hc Hl]. unfold make_payment.
  destruct (Db.find_one _ (Db.loans db)) as [loan|]; [|split; assumption].
  destruct (Py.getitem _ _); [|split; assumption].
  split; cbn; [assumption|].
  destruct (Py.ltb _ _); [|assumption].
  apply Forall_update_one; [|assumption].
  intros d. apply inc_emis_paid_on_time_complete.
Qed.

(** In a complete store every loan that is found has its installment. *)
Lemma complete_store_installment (db : Db.t) (loan_id : string) (loan : Loan.t) :
  complete_store db ->
  Db.find_one (loan_filter loan_id) (Db.loans db) = Some loan ->
  exists installment, Loan.monthly_repayment loan = Some installment.
Proof.
  intros [_ Hl] Hfind. unfold Db.find_one in Hfind.
  apply find_some in Hfind. destruct Hfind as [Hin _].
  rewrite Forall_forall in Hl. destruct (Hl loan Hin) as (_ & _ & Hm & _).
  destruct (Loan.monthly_repayment loan) as [m|]; [now exists m|contradiction].
Qed.

(** ** Payments *)

(** The on-schedule test in terms of the order on numbers. *)
Lemma on_schedule_iff (payment installment : Q) :
  Py.ltb (Qabs (payment - installment)) (1 # 100) = true
  <-> Qabs (payment - installment) < 1 # 100.
Proof. apply ltb_lt. Qed.

Lemma short_payment_not_on_schedule (installment : Q) :
  Py.ltb (Qabs (installment - (2 # 100) - installment)) (1 # 100) = false.
Proof.
  apply ltb_ge. apply Qnot_lt_le. intro H.
  apply Qabs_Qlt_condition in H. destruct H as [H _]. lra.
Qed.

Lemma close_payment_on_schedule (installment : Q) :
  Py.ltb (Qabs (installment + (5 # 1000) - installment)) (1 # 100) = true.
Proof.
  apply ltb_lt. apply Qabs_Qlt_condition. split; lra.
Qed.

(** A stored loan without the [monthly_repayment] key, which no handler
    of the service writes, makes the lookup inside the [try] fail: the
    payment stays recorded and the answer is status 400. *)
Lemma make_payment_without_installment
    (db : Db.t) (loan_id : string) (amount : Q) (t1 t2 : Z) (loan : Loan.t) :
  Db.find_one (loan_filter loan_id) (Db.loans db) = Some loan ->
  Loan.monthly_repayment loan = None ->
  make_payment db loan_id amount t1 t2
  = (Db.mk (Db.customers db) (Db.loans db)
       (Db.loan_payments db ++ [Payment.mk loan_id amount t1]),
     Raise (HTTPException 400 "Payment recording failed")).
Proof.
  intros Hfind Hnone. unfold make_payment. rewrite Hfind, Hnone. reflexivity.
Qed.

(** C9.  A payment for a loan that is not stored answers status 404 and
    changes nothing.  For a stored loan (with its installment) the payment
    succeeds and is appended to the stored payments; the stored customers,
    hence their debts, stay as they are; the loans stay as they are unless
    the amount is within 0.01 of the installment, in which case the
    on-time counter of that loan, and nothing else, goes up by 1.  An
    amount of installment - 0.02 leaves the counter, installment + 0.005
    raises it. *)
Theorem make_payment_effect
    (db : Db.t) (loan_id : string) (amount : Q) (t1 t2 : Z) :
  (Db.find_one (loan_filter loan_id) (Db.loans db) = None ->
   make_payment db loan_id amount t1 t2
   = (db, Raise (HTTPException 404 "Loan not found")))
  /\ (forall loan installment,
        Db.find_one (loan_filter loan_id) (Db.loans db) = Some loan ->
        Loan.monthly_repayment loan = Some installment ->
        exists db' r,
          make_payment db loan_id amount t1 t2 = (db', Ok r)
          /\ Db.loan_payments db'
             = (Db.loan_payments db ++ [Payment.mk loan_id amount t1])%list
          /\ Db.customers db' = Db.customers db
          /\ (Qabs (amount - installment) < 1 # 100 ->
              Db.loans db'
              = Db.update_one (loan_filter loan_id) (inc_emis_paid_on_time 1)
                  (Db.loans db)
              /\ exists loan',
                  Db.find_one (loan_filter loan_id) (Db.loans db') = Some loan'
                  /\ Loan.emis_paid_on_time loan'
                     = Some (Py.get (Loan.emis_paid_on_time loan) 0 + 1)%Z
                  /\ Loan.loan_id loan' = Loan.loan_id loan
                  /\ Loan.customer_id loan' = Loan.customer_id loan
                  /\ Loan.loan_amount loan' = Loan.loan_amount loan
                  /\ Loan.tenure loan' = Loan.tenure loan
                  /\ Loan.interest_rate loan' = Loan.interest_rate loan
                  /\ Loan.monthly_repayment loan' = Loan.monthly_repayment loan
                  /\ Loan.start_date loan' = Loan.start_date loan
                  /\ Loan.end_date loan' = Loan.end_date loan
                  /\ Loan.status loan' = Loan.status loan
                  /\ Loan.created_at loan' = Loan.created_at loan)
          /\ (~ Qabs (amount - installment) < 1 # 100 ->
              Db.loans db' = Db.loans db)
          /\ (amount = installment - (2 # 100) -> Db.loans db' = Db.loans db)
          /\ (amount = installment + (5 # 1000) ->
              Db.loans db'
              = Db.update_one (loan_filter loan_id) (inc_emis_paid_on_time 1)
                  (Db.loans db))).
Proof.
  split.
  - intro Hnone. unfold make_payment. rewrite Hnone. reflexivity.
  - intros loan installment Hfind Hinst.
    unfold make_payment. rewrite Hfind, Hinst. cbn [Py.getitem].
    do 2 eexists. split; [reflexivity|].
    cbn [Db.loan_payments Db.customers Db.loans].
    split; [reflexivity|]. split; [reflexivity|].
    split; [|split; [|split]].
    + intro Hclose. apply on_schedule_iff in Hclose. rewrite Hclose.
      split; [reflexivity|].
      exists (inc_emis_paid_on_time 1 loan). split.
      * rewrite find_one_update_one; [now rewrite Hfind|].
        intro d. reflexivity.
      * cbn. destruct (Loan.emis_paid_on_time loan); repeat split;
          exact Hinst.
    + intro Hfar.
      destruct (Py.ltb (Qabs (amount - installment)) (1 # 100)) eqn:E;
        [|reflexivity].
      apply on_schedule_iff in E. contradiction.
    + intros ->. now rewrite short_payment_not_on_schedule.
    + intros ->. now rewrite close_payment_on_schedule.
Qed.

Lemma make_payment_effect_witness :
  exists db' r,
    make_payment lent_store "l8" (879159 # 100) 9 9 = (db', Ok r)
    /\ exists loan',
        Db.find_one (loan_filter "l8") (Db.loans db') = Some loan'
        /\ Loan.emis_paid_on_time loan' = Some 1%Z.
Proof.
  destruct (make_payment_effect lent_store "l8" (879159 # 100) 9 9) as [_ H].
  destruct (H (Loan.mk "l8" "u4" (Some 100000) (Some 12%Z) 10
                 (Some (879159 # 100)) (Some 0%Z) 7
                 (7 + 12 * 30 * seconds_per_day)%Z "active" 7)
              (879159 # 100))
    as (db' & r & Hm & _ & _ & Hinc & _).
  - vm_compute. reflexivity.
  - reflexivity.
  - exists db', r. split; [exact Hm|].
    destruct Hinc as (_ & loan' & Hf & He & _); [vm_compute; reflexivity|].
    exists loan'. split; [exact Hf | exact He].
Defined.

(** ** What the score depends on *)

(** Addition of rationals is commutative and associative on the
    representation, not only up to [==]. *)
Lemma Qplus_comm_repr (a b : Q) : a + b = b + a.
Proof.
  unfold Qplus. f_equal; [ring | apply Pos.mul_comm].
Qed.

Lemma Qplus_assoc_repr (a b c : Q) : a + b + c = a + (b + c).
Proof.
  unfold Qplus. cbn [Qnum Qden]. f_equal.
  - rewrite !Pos2Z.inj_mul. ring.
  - symmetry. apply Pos.mul_assoc.
Qed.

Lemma fold_Qplus_permutation (xs ys : list Q) :
  Permutation xs ys -> forall a, fold_left Qplus xs a = fold_left Qplus ys a.
Proof.
  induction 1 as [|x xs ys _ IH|x y xs|xs ys zs _ IH1 _ IH2]; intro a.
  - reflexivity.
  - simpl. apply IH.
  - simpl. f_equal.
    rewrite !Qplus_assoc_repr. f_equal. apply Qplus_comm_repr.
  - now rewrite IH1.
Qed.

Lemma fold_Zadd_permutation (xs ys : list Z) :
  Permutation xs ys ->
  forall a, fold_left Z.add xs a = fold_left Z.add ys a.
Proof.
  induction 1 as [|x xs ys _ IH|x y xs|xs ys zs _ IH1 _ IH2]; intro a.
  - reflexivity.
  - simpl. apply IH.
  - simpl. f_equal. lia.
  - now rewrite IH1.
Qed.

Section ScoredFields.

Variables loans loans' : list Loan.t.
Hypothesis same_fields :
  Permutation (map scored_fields loans) (map scored_fields loans').

Lemma same_length : List.length loans = List.length loans'.
Proof.
  rewrite <- (length_map scored_fields loans).
  rewrite <- (length_map scored_fields loans').
  now apply Permutation_length.
Qed.

Lemma same_total_emis :
  Py.sumZ (map (fun loan => Py.get (Loan.tenure loan) 0%Z) loans)
  = Py.sumZ (map (fun loan => Py.get (Loan.tenure loan) 0%Z) loans').
Proof.
  unfold Py.sumZ. apply fold_Zadd_permutation.
  rewrite <- !(map_map scored_fields (fun f => Py.get (fst (fst f)) 0%Z)).
  now apply Permutation_map.
Qed.

Lemma same_paid_on_time :
  Py.sumZ (map (fun loan => Py.get (Loan.emis_paid_on_time loan) 0%Z) loans)
  = Py.sumZ (map (fun loan => Py.get (Loan.emis_paid_on_time loan) 0%Z) loans').
Proof.
  unfold Py.sumZ. apply fold_Zadd_permutation.
  rewrite <- !(map_map scored_fields (fun f => Py.get (snd (fst f)) 0%Z)).
  now apply Permutation_map.
Qed.

Lemma same_total_amount :
  Py.sum (map (fun loan => Py.get (Loan.loan_amount loan) 0) loans)
  = Py.sum (map (fun loan => Py.get (Loan.loan_amount loan) 0) loans').
Proof.
  unfold Py.sum. apply fold_Qplus_permutation.
  rewrite <- !(map_map scored_fields (fun f => Py.get (snd f) 0)).
  now apply Permutation_map.
Qed.

End ScoredFields.



(** * Further properties of the service *)

(** ** Rounding *)

Lemma round_wd (x y : Q) : x == y -> Py.round x = Py.round y.
Proof.
  intro H. unfold Py.round, Py.ltb.
  assert (Hf : Qfloor x = Qfloor y) by (now rewrite H).
  rewrite Hf.
  assert (Hr : x - inject_Z (Qfloor y) == y - inject_Z (Qfloor y))
    by (now rewrite H).
  now rewrite !Hr.
Qed.

(** [round] gives an integer within one half of its argument. *)
Lemma round_nearest (x : Q) : Qabs (inject_Z (Py.round x) - x) <= 1 # 2.
Proof.
  pose proof (Qfloor_le x) as Hlo. pose proof (Qlt_floor x) as Hhi.
  rewrite inject_Z_plus in Hhi. change (inject_Z 1) with 1 in Hhi.
  apply Qabs_Qle_condition. unfold Py.round.
  destruct (Py.ltb (x - inject_Z (Qfloor x)) (1 # 2)) eqn:E1.
  - apply ltb_lt in E1. split; lra.
  - apply ltb_ge in E1.
    destruct (Py.ltb (1 # 2) (x - inject_Z (Qfloor x))) eqn:E2.
    + apply ltb_lt in E2. rewrite inject_Z_plus.
      change (inject_Z 1) with 1. split; lra.
    + apply ltb_ge in E2. destruct (Z.even (Qfloor x)).
      * split; lra.
      * rewrite inject_Z_plus. change (inject_Z 1) with 1. split; lra.
Qed.

Lemma round_integer (z : Z) : Py.round (inject_Z z) = z.
Proof.
  unfold Py.round. rewrite Qfloor_Z.
  assert (H : Py.ltb (inject_Z z - inject_Z z) (1 # 2) = true).
  { apply ltb_lt. lra. }
  now rewrite H.
Qed.

Lemma round_nonnegative (x : Q) : 0 <= x -> (0 <= Py.round x)%Z.
Proof.
  intro Hx.
  assert (Hf : (0 <= Qfloor x)%Z).
  { change 0%Z with (Qfloor 0). now apply Qfloor_resp_le. }
  unfold Py.round.
  destruct (Py.ltb _ (1 # 2)); [assumption|].
  destruct (Py.ltb (1 # 2) _); [lia|].
  destruct (Z.even (Qfloor x)); lia.
Qed.

(** ** Registration *)



Lemma find_one_insert_one {A : Type} (p : A -> bool) (doc : A) (docs : list A) :
  Db.find_one p (Db.insert_one doc docs)
  = match Db.find_one p docs with
    | Some d => Some d
    | None => if p doc then Some doc else None
    end.
Proof.
  unfold Db.find_one, Db.insert_one.
  induction docs as [|d rest IH]; simpl; [reflexivity|].
  destruct (p d); [reflexivity|exact IH].
Qed.

Lemma customer_filter_other (uuid other : string) (c : Customer.t) :
  Customer.customer_id c = uuid -> other <> uuid ->
  customer_filter other c = false.
Proof.
  intros Hc Hne. unfold customer_filter. apply String.eqb_neq. congruence.
Qed.



(** ** The customer profile *)

Lemma find_to_list_length {A : Type} (p : A -> bool) (n : nat) (docs : list A) :
  (List.length (Db.find_to_list p n docs) <= n)%nat.
Proof. unfold Db.find_to_list. apply firstn_le_length. Qed.

Lemma filter_length_bound {A : Type} (p : A -> bool) (docs : list A) :
  (List.length (filter p docs) <= List.length docs)%nat.
Proof.
  induction docs as [|d rest IH]; simpl; [lia|].
  destruct (p d); simpl; lia.
Qed.

(** X3.  A profile is answered with status 404 exactly when no customer
    with the identifier is stored.  A profile that is returned carries a
    score between 300 and 850, which is the score an eligibility check for
    the same customer reports, counts at most 1000 loans, and counts no
    more active loans than loans. *)
Theorem get_customer_profile (db : Db.t) (customer_id : string) :
  (get_customer db customer_id = Raise (HTTPException 404 "Customer not found")
   <-> Db.find_one (customer_filter customer_id) (Db.customers db) = None)
  /\ (forall p,
        get_customer db customer_id = Ok p ->
        (300 <= CustomerProfile.credit_score p <= 850)%Z
        /\ (CustomerProfile.active_loans p <= CustomerProfile.total_loans p)%nat
        /\ (CustomerProfile.total_loans p <= 1000)%nat
        /\ forall data r,
            LoanRequest.customer_id data = customer_id ->
            check_eligibility db data = Ok r ->
            EligibilityResponse.credit_score r = CustomerProfile.credit_score p).
Proof.
  unfold get_customer. split.
  - destruct (Db.find_one _ (Db.customers db)) as [customer|];
      [|split; reflexivity].
    split; [|discriminate].
    destruct (calculate_credit_score customer _) as [s|[]] eqn:Hs;
      cbn [bind]; try discriminate.
    + destruct (Customer.monthly_salary customer); cbn; [|discriminate].
      destruct (Customer.approved_limit customer); cbn; [|discriminate].
      destruct (Customer.current_debt customer); cbn; discriminate.
    + exfalso. destruct (Db.find_to_list _ 1000 (Db.loans db)) as [|l ls];
        [discriminate Hs|].
      destruct (calculate_credit_score_nonempty customer l ls) as [Hz Hnz].
      destruct (Qeq_dec (Py.get (Customer.approved_limit customer) 1) 0) as [E|E].
      * rewrite (Hz E) in Hs. discriminate Hs.
      * destruct (Hnz E) as (s & Hs' & _). rewrite Hs' in Hs. discriminate Hs.
  - intros p.
    destruct (Db.find_one _ (Db.customers db)) as [customer|] eqn:Hfind;
      [|discriminate].
    destruct (calculate_credit_score customer _) as [s|] eqn:Hs;
      cbn [bind]; [|discriminate].
    destruct (Customer.monthly_salary customer); cbn [Py.getitem bind];
      [|discriminate].
    destruct (Customer.approved_limit customer); cbn [Py.getitem bind];
      [|discriminate].
    destruct (Customer.current_debt customer); cbn [Py.getitem bind];
      [|discriminate].
    intro H. injection H as <-.
    cbn [CustomerProfile.credit_score CustomerProfile.active_loans
         CustomerProfile.total_loans].
    split; [exact (calculate_credit_score_range _ _ _ Hs)|].
    split; [apply filter_length_bound|].
    split; [apply find_to_list_length|].
    intros data r Hid. unfold check_eligibility. rewrite Hid, Hfind, Hs.
    cbn [bind].
    repeat match goal with
           | |- bind ?c _ = Ok _ -> _ =>
               destruct c; cbn [bind]; [|discriminate]
           end.
    intro H. injection H as <-. reflexivity.
Qed.

Lemma get_customer_profile_witness :
  exists p,
    get_customer lent_store "u4" = Ok p
    /\ (CustomerProfile.total_loans p <= 1000)%nat
    /\ (300 <= CustomerProfile.credit_score p <= 850)%Z.
Proof.
  destruct (get_customer_profile lent_store "u4") as [_ H].
  eexists. split; [vm_compute; reflexivity|].
  match goal with
  | |- (CustomerProfile.total_loans ?p <= _)%nat /\ _ =>
      destruct (H p) as (Hs & _ & Ht & _); [vm_compute; reflexivity|]
  end.
  split; [exact Ht | exact Hs].
Defined.

(** ** Reachable stores *)

Lemma reachable_complete (db : Db.t) : reachable db -> complete_store db.
Proof.
  induction 1.
  - apply empty_store_complete.
  - now apply register_customer_complete.
  - now apply create_loan_complete.
  - now apply make_payment_complete.
Qed.

Lemma lent_store_reachable : reachable lent_store.
Proof.
  unfold lent_store, regular_store.
  apply reach_create_loan, reach_register, reach_empty.
Qed.

(** X4.  Every store built from the empty one by registrations, loan
    creations and payments holds complete documents only; on such a store
    a payment either answers status 404, for a loan that is not stored,
    or succeeds. *)
Theorem reachable_store_complete (db : Db.t) :
  reachable db ->
  complete_store db
  /\ forall loan_id amount t1 t2,
      (Db.find_one (loan_filter loan_id) (Db.loans db) = None
       /\ make_payment db loan_id amount t1 t2
          = (db, Raise (HTTPException 404 "Loan not found")))
      \/ (exists db' r, make_payment db loan_id amount t1 t2 = (db', Ok r)).
Proof.
  intro Hreach.
  pose proof (reachable_complete db Hreach) as Hc.
  split; [exact Hc|].
  intros loan_id amount t1 t2. unfold make_payment.
  destruct (Db.find_one (loan_filter loan_id) (Db.loans db)) as [loan|] eqn:Hfind.
  - right.
    destruct (complete_store_installment db loan_id loan Hc Hfind) as [m Hm].
    rewrite Hm. cbn [Py.getitem]. do 2 eexists. reflexivity.
  - left. split; reflexivity.
Qed.

Lemma reachable_store_complete_witness :
  complete_store lent_store
  /\ exists db' r, make_payment lent_store "l8" 1 9 9 = (db', Ok r).
Proof.
  destruct (reachable_store_complete lent_store lent_store_reachable)
    as [Hc Hp].
  split; [exact Hc|].
  destruct (Hp "l8" 1 9%Z 9%Z) as [[Hnone _]|Hok]; [|exact Hok].
  vm_compute in Hnone. discriminate Hnone.
Defined.

(** ** The loan list of a customer *)

Lemma format_loan_complete (loan : Loan.t) :
  complete_loan loan ->
  exists e,
    format_loan loan = Ok e
    /\ Loan.tenure loan = Some (LoanSummary.repayments_left e
                                + Py.get (Loan.emis_paid_on_time loan) 0)%Z
    /\ Loan.monthly_repayment loan = Some (LoanSummary.monthly_installment e)
    /\ LoanSummary.loan_id e = Loan.loan_id loan.
Proof.
  intros (Ha & Ht & Hm & He). unfold format_loan.
  destruct (Loan.loan_amount loan) as [a|]; [|contradiction].
  destruct (Loan.monthly_repayment loan) as [m|]; [|contradiction].
  destruct (Loan.tenure loan) as [t|]; [|contradiction].
  destruct (Loan.emis_paid_on_time loan) as [e|]; [|contradiction].
  cbn. eexists. split; [reflexivity|]. cbn. repeat split. f_equal. lia.
Qed.

Lemma format_loans_complete (loans : list Loan.t) :
  Forall complete_loan loans ->
  exists entries,
    format_loans loans = Ok entries
    /\ Forall2
         (fun loan e =>
            LoanSummary.loan_id e = Loan.loan_id loan
            /\ Loan.monthly_repayment loan = Some (LoanSummary.monthly_installment e)
            /\ Loan.tenure loan
               = Some (LoanSummary.repayments_left e
                       + Py.get (Loan.emis_paid_on_time loan) 0)%Z)
         loans entries.
Proof.
  induction 1 as [|loan rest Hl _ IH].
  - exists []. split; [reflexivity|constructor].
  - destruct (format_loan_complete loan Hl) as (e & He & Ht & Hm & Hid).
    destruct IH as (entries & Hes & Hall).
    exists (e :: entries). simpl. rewrite He. cbn [bind]. rewrite Hes.
    split; [reflexivity|]. constructor; [|exact Hall]. repeat split; assumption.
Qed.

Lemma In_find_to_list {A : Type} (p : A -> bool) (n : nat) (docs : list A)
    (x : A) :
  In x (Db.find_to_list p n docs) -> In x docs /\ p x = true.
Proof.
  unfold Db.find_to_list. intro Hx. apply filter_In.
  rewrite <- (firstn_skipn n (filter p docs)). apply in_or_app. now left.
Qed.

Lemma Forall_find_to_list {A : Type} (P : A -> Prop) (p : A -> bool) (n : nat)
    (docs : list A) :
  Forall P docs -> Forall P (Db.find_to_list p n docs).
Proof.
  intro H. rewrite Forall_forall in *.
  intros x Hx. apply H. now apply In_find_to_list in Hx.
Qed.

(** X5.  On a store with complete documents the loan list of a customer
    never raises: it has one entry for each of the (at most 1000) loans
    read, in storage order, each with the stored installment and with the
    tenure minus the on-time counter as repayments left.  For an
    identifier without stored loan, that of an unknown customer included,
    the answer is the empty list and not status 404. *)
Theorem view_customer_loans_entries (db : Db.t) (customer_id : string) :
  (complete_store db ->
   exists entries,
     view_customer_loans db customer_id = Ok entries
     /\ (List.length entries <= 1000)%nat
     /\ Forall2
          (fun loan e =>
             LoanSummary.loan_id e = Loan.loan_id loan
             /\ Loan.monthly_repayment loan = Some (LoanSummary.monthly_installment e)
             /\ Loan.tenure loan
                = Some (LoanSummary.repayments_left e
                        + Py.get (Loan.emis_paid_on_time loan) 0)%Z)
          (Db.find_to_list (loans_of_filter customer_id) 1000 (Db.loans db))
          entries)
  /\ ((forall loan, In loan (Db.loans db) -> Loan.customer_id loan <> customer_id) ->
      view_customer_loans db customer_id = Ok []).
Proof.
  unfold view_customer_loans. split.
  - intros [_ Hl].
    destruct (format_loans_complete
                (Db.find_to_list (loans_of_filter customer_id) 1000 (Db.loans db)))
      as (entries & He & Hall).
    { now apply Forall_find_to_list. }
    exists entries. split; [exact He|]. split; [|exact Hall].
    rewrite <- (Forall2_length Hall). apply find_to_list_length.
  - intro Hnone.
    assert (Hf : filter (loans_of_filter customer_id) (Db.loans db) = []).
    { induction (Db.loans db) as [|l ls IH]; [reflexivity|].
      simpl. unfold loans_of_filter at 1.
      destruct (String.eqb_spec (Loan.customer_id l) customer_id) as [E|E].
      - exfalso. apply (Hnone l); [now left|exact E].
      - apply IH. intros loan Hin. apply Hnone. now right. }
    unfold Db.find_to_list. rewrite Hf. reflexivity.
Qed.

Lemma view_customer_loans_entries_witness :
  (exists entries,
     view_customer_loans lent_store "u4" = Ok entries
     /\ (List.length entries <= 1000)%nat)
  /\ view_customer_loans lent_store "nobody" = Ok [].
Proof.
  split.
  - destruct (view_customer_loans_entries lent_store "u4") as [H _].
    destruct H as (entries & He & Hlen & _).
    + apply reachable_complete, lent_store_reachable.
    + exists entries. split; assumption.
  - destruct (view_customer_loans_entries lent_store "nobody") as [_ H].
    apply H. intros loan Hin. vm_compute in Hin.
    destruct Hin as [<-|[]]. discriminate.
Defined.

(** ** What a successful loan creation implies *)

(** A creation that succeeds passed the three rules, and the store it
    leaves is the old one with the debt incremented and the loan
    appended. *)
Lemma create_loan_success_rules
    (db db' : Db.t) (data : LoanRequest.t) (uuid : string) (t1 t2 : Z)
    (r : LoanResponse.t) :
  let cid := LoanRequest.customer_id data in
  let amount := LoanRequest.loan_amount data in
  let rate := LoanRequest.interest_rate data in
  let tenure := LoanRequest.tenure data in
  let loans := Db.find_to_list (loans_of_filter cid) 1000 (Db.loans db) in
  create_loan db data uuid t1 t2 = (db', Ok r) ->
  exists customer score emi salary debt limit,
    Db.find_one (customer_filter cid) (Db.customers db) = Some customer
    /\ calculate_credit_score customer loans = Ok score
    /\ calculate_emi amount rate tenure = Ok emi
    /\ Customer.monthly_salary customer = Some salary
    /\ ~ salary == 0
    /\ Customer.current_debt customer = Some debt
    /\ Customer.approved_limit customer = Some limit
    /\ (500 <= score)%Z
    /\ (Py.sum (map (fun loan => Py.get (Loan.monthly_repayment loan) 0) loans) + emi)
       / salary <= 1 # 2
    /\ debt + amount <= limit
    /\ r = LoanResponse.mk uuid cid true "Loan approved successfully" emi
    /\ db' = Db.mk
               (Db.update_one (customer_filter cid) (inc_current_debt amount)
                  (Db.customers db))
               (Db.loans db
                  ++ [Loan.mk uuid cid (Some amount) (Some tenure) rate (Some emi)
                        (Some 0%Z) t1 (t1 + tenure * 30 * seconds_per_day)%Z
                        "active" t2])
               (Db.loan_payments db).
Proof.
  intros cid amount rate tenure loans. unfold create_loan.
  fold cid amount rate tenure.
  destruct (Db.find_one _ (Db.customers db)) as [customer|] eqn:Hfind;
    [|discriminate].
  fold loans.
  destruct (calculate_credit_score customer loans) as [score|] eqn:Hscore;
    [|discriminate].
  cbn [bind].
  destruct (calculate_emi amount rate tenure) as [emi|] eqn:Hemi;
    [|discriminate].
  cbn [bind].
  destruct (Customer.monthly_salary customer) as [salary|] eqn:Hsalary;
    [|discriminate].
  cbn [bind Py.getitem].
  destruct (truediv_cases
              (Py.sum (map (fun loan => Py.get (Loan.monthly_repayment loan) 0) loans)
               + emi) salary) as [[_ ->]|[Hsal ->]]; [discriminate|].
  cbn [bind].
  destruct (Customer.current_debt customer) as [debt|] eqn:Hdebt;
    [|discriminate].
  cbn [bind Py.getitem].
  destruct (score <? 500)%Z eqn:E500; [discriminate|].
  apply Z.ltb_ge in E500.
  destruct (Py.gtb _ (1 # 2)) eqn:Eratio; [discriminate|].
  apply gtb_le in Eratio.
  destruct (Customer.approved_limit customer) as [limit|] eqn:Hlimit;
    [|discriminate].
  cbn [bind Py.getitem].
  destruct (Py.gtb (debt + amount) limit) eqn:Edebt; [discriminate|].
  apply gtb_le in Edebt. cbn [bind].
  intro H. injection H as <- <-.
  exists customer, score, emi, salary, debt, limit.
  repeat split; first [assumption | reflexivity].
Qed.

Lemma Forall_update_one_found {A : Type} (P : A -> Prop) (p : A -> bool)
    (f : A -> A) (docs : list A) (c : A) :
  Db.find_one p docs = Some c -> P (f c) ->
  Forall P docs -> Forall P (Db.update_one p f docs).
Proof.
  unfold Db.find_one. intros Hfind Hc.
  induction 1 as [|d rest Hd Hrest IH]; simpl in *; [constructor|].
  destruct (p d).
  - injection Hfind as ->. now constructor.
  - constructor; auto.
Qed.

(** X6.  A loan creation that succeeds found the score at 500 or more,
    the installments within half of the salary and the new debt within
    the approved limit; afterwards the stored debt of the customer is the
    old debt plus the amount and does not exceed the stored limit, and the
    installment answered is the one of the calculator at the requested
    rate. *)
Theorem create_loan_success_within_limit
    (db db' : Db.t) (data : LoanRequest.t) (uuid : string) (t1 t2 : Z)
    (r : LoanResponse.t) :
  let cid := LoanRequest.customer_id data in
  create_loan db data uuid t1 t2 = (db', Ok r) ->
  exists before after score limit debt,
    Db.find_one (customer_filter cid) (Db.customers db) = Some before
    /\ calculate_credit_score before
         (Db.find_to_list (loans_of_filter cid) 1000 (Db.loans db)) = Ok score
    /\ (500 <= score)%Z
    /\ Db.find_one (customer_filter cid) (Db.customers db') = Some after
    /\ Customer.approved_limit after = Some limit
    /\ Customer.current_debt after = Some debt
    /\ debt <= limit
    /\ calculate_emi (LoanRequest.loan_amount data) (LoanRequest.interest_rate data)
         (LoanRequest.tenure data)
       = Ok (LoanResponse.monthly_installment r).
Proof.
  intros cid Hc.
  destruct (create_loan_success_rules _ _ _ _ _ _ _ Hc)
    as (customer & score & emi & salary & debt & limit & Hfind & Hscore & Hemi
        & _ & _ & Hdebt & Hlimit & H500 & _ & Hle & -> & ->).
  fold cid in Hfind, Hscore |- *.
  exists customer, (inc_current_debt (LoanRequest.loan_amount data) customer),
    score, limit, (debt + LoanRequest.loan_amount data).
  split; [exact Hfind|]. split; [exact Hscore|]. split; [exact H500|].
  cbn [Db.customers]. split.
  { rewrite find_one_update_one; [now rewrite Hfind|]. intro d. reflexivity. }
  cbn. rewrite Hdebt. repeat split; assumption.
Qed.

Lemma create_loan_success_within_limit_witness :
  exists after debt,
    Db.find_one (customer_filter "u4") (Db.customers lent_store) = Some after
    /\ Customer.current_debt after = Some debt
    /\ debt <= 1800000.
Proof.
  destruct (create_loan_success_within_limit regular_store lent_store first_loan
              "l8" 7 7
              (LoanResponse.mk "l8" "u4" true "Loan approved successfully"
                 (879159 # 100)))
    as (before & after & score & limit & debt & _ & _ & _ & Ha & Hl & Hd & Hle & _).
  - vm_compute. reflexivity.
  - exists after, debt. split; [exact Ha|]. split; [exact Hd|].
    vm_compute in Ha. injection Ha as <-. cbn in Hl. injection Hl as <-.
    exact Hle.
Defined.

(** X7.  The three writing handlers keep every stored debt within the
    stored limit: loan creation and payment always, registration whenever
    the salary is not negative. *)
Theorem debts_stay_within_limits (db : Db.t) :
  Forall within_limit (Db.customers db) ->
  (forall data uuid t1 t2,
     Forall within_limit (Db.customers (fst (create_loan db data uuid t1 t2))))
  /\ (forall loan_id amount t1 t2,
        Forall within_limit
          (Db.customers (fst (make_payment db loan_id amount t1 t2))))
  /\ (forall data uuid now,
        0 <= CustomerCreate.monthly_salary data ->
        Forall within_limit
          (Db.customers (fst (register_customer db data uuid now)))).
Proof.
  intro Hall. split; [|split].
  - intros data uuid t1 t2.
    destruct (create_loan db data uuid t1 t2) as [db' [r|e]] eqn:Hc.
    + destruct (create_loan_success_rules _ _ _ _ _ _ _ Hc)
        as (customer & score & emi & salary & debt & limit & Hfind & _ & _
            & _ & _ & Hdebt & Hlimit & _ & _ & Hle & _ & ->).
      cbn [fst Db.customers].
      apply (Forall_update_one_found _ _ _ _ customer Hfind); [|exact Hall].
      unfold within_limit. cbn. rewrite Hdebt, Hlimit. exact Hle.
    + assert (Hsame : db' = db).
      { unfold create_loan in Hc.
        destruct (Db.find_one _ (Db.customers db));
          [|now injection Hc as <- _].
        match type of Hc with
        | match ?c with Ok _ => _ | Raise _ => _ end = _ =>
            destruct c; [discriminate Hc|now injection Hc as <- _]
        end. }
      rewrite Hsame. exact Hall.
  - intros loan_id amount t1 t2. unfold make_payment.
    destruct (Db.find_one _ (Db.loans db)); [|exact Hall].
    destruct (Py.getitem _ _); exact Hall.
  - intros data uuid now Hsal. cbn [register_customer fst Db.customers].
    apply Forall_insert_one; [|exact Hall].
    unfold within_limit. cbn.
    change 0 with (inject_Z 0). rewrite <- Zle_Qle.
    apply round_nonnegative.
    rewrite <- (Qmult_0_r 36). apply Qmult_le_l; [reflexivity|exact Hsal].
Qed.

Lemma debts_stay_within_limits_witness :
  Forall within_limit (Db.customers lent_store)
  /\ Forall within_limit (Db.customers regular_store).
Proof.
  destruct (debts_stay_within_limits empty_store) as (_ & _ & Hreg);
    [constructor|].
  assert (Hr : Forall within_limit (Db.customers regular_store)).
  { apply (Hreg regular_salary "u4" 0%Z). vm_compute. discriminate. }
  split; [|exact Hr].
  destruct (debts_stay_within_limits regular_store Hr) as (Hcreate & _).
  apply (Hcreate first_loan "l8" 7%Z 7%Z).
Defined.

(** ** Viewing a loan *)

Lemma find_none_filter {A : Type} (p : A -> bool) (docs : list A) :
  Db.find_one p docs = None -> filter p docs = [].
Proof.
  unfold Db.find_one. induction docs as [|d rest IH]; simpl; [reflexivity|].
  destruct (p d); [discriminate|exact IH].
Qed.

Lemma find_some_filter {A : Type} (p : A -> bool) (docs : list A) (x : A) :
  Db.find_one p docs = Some x -> exists rest, filter p docs = x :: rest.
Proof.
  unfold Db.find_one. induction docs as [|d rest IH]; simpl; [discriminate|].
  destruct (p d).
  - intro H. injection H as ->. now eexists.
  - exact IH.
Qed.

Lemma filter_nil_find {A : Type} (p : A -> bool) (docs : list A) :
  filter p docs = [] -> Db.find_one p docs = None.
Proof.
  unfold Db.find_one. induction docs as [|d rest IH]; simpl; [reflexivity|].
  destruct (p d); [discriminate|exact IH].
Qed.

(** X8.  After a loan creation that succeeds under a loan identifier not
    stored before, viewing that identifier returns the loan as created:
    amount, rate and tenure as requested, the installment that the
    creation answered, no installment paid, status active, the end date
    30 days per month of tenure after the start, and the names of the
    customer. *)
Theorem create_loan_then_view
    (db db' : Db.t) (data : LoanRequest.t) (uuid : string) (t1 t2 : Z)
    (r : LoanResponse.t) :
  create_loan db data uuid t1 t2 = (db', Ok r) ->
  Db.find_one (loan_filter uuid) (Db.loans db) = None ->
  exists customer v,
    Db.find_one (customer_filter (LoanRequest.customer_id data)) (Db.customers db)
    = Some customer
    /\ view_loan db' uuid = Ok v
    /\ LoanView.loan_id v = uuid
    /\ LoanView.customer_id v = LoanRequest.customer_id data
    /\ LoanView.customer_first_name v = Customer.first_name customer
    /\ LoanView.customer_last_name v = Customer.last_name customer
    /\ LoanView.loan_amount v = LoanRequest.loan_amount data
    /\ LoanView.interest_rate v = LoanRequest.interest_rate data
    /\ LoanView.monthly_installment v = LoanResponse.monthly_installment r
    /\ LoanView.tenure v = LoanRequest.tenure data
    /\ LoanView.emis_paid_on_time v = 0%Z
    /\ LoanView.start_date v = t1
    /\ LoanView.end_date v
       = (t1 + LoanRequest.tenure data * 30 * seconds_per_day)%Z
    /\ LoanView.status v = "active".
Proof.
  intros Hc Hfresh.
  destruct (create_loan_success_rules _ _ _ _ _ _ _ Hc)
    as (customer & score & emi & salary & debt & limit & Hfind & _ & _
        & _ & _ & _ & _ & _ & _ & _ & -> & ->).
  exists customer.
  assert (Hcust :
    Db.find_one (customer_filter (LoanRequest.customer_id data))
      (Db.update_one (customer_filter (LoanRequest.customer_id data))
         (inc_current_debt (LoanRequest.loan_amount data)) (Db.customers db))
    = Some (inc_current_debt (LoanRequest.loan_amount data) customer)).
  { rewrite find_one_update_one; [now rewrite Hfind|]. intro d. reflexivity. }
  destruct (find_some_filter _ _ _ Hcust) as [rest Hrest].
  unfold view_loan, loan_with_customer. cbn [Db.loans Db.customers].
  rewrite filter_app, (find_none_filter _ _ Hfresh).
  cbn [filter app]. unfold loan_filter at 1. cbn [Loan.loan_id].
  rewrite String.eqb_refl.
  cbn [flat_map Loan.customer_id]. rewrite Hrest.
  cbn [map app firstn Loan.loan_amount Loan.monthly_repayment Loan.tenure
       Loan.emis_paid_on_time Py.getitem bind].
  eexists. split; [exact Hfind|]. split; [reflexivity|]. cbn. repeat split.
Qed.

Lemma create_loan_then_view_witness :
  exists v,
    view_loan lent_store "l8" = Ok v
    /\ LoanView.monthly_installment v = 879159 # 100
    /\ LoanView.customer_first_name v = "Eve".
Proof.
  destruct (create_loan_then_view regular_store lent_store first_loan "l8" 7 7
              (LoanResponse.mk "l8" "u4" true "Loan approved successfully"
                 (879159 # 100)))
    as (customer & v & Hf & Hv & _ & _ & Hn & _ & _ & _ & Hm & _).
  - vm_compute. reflexivity.
  - reflexivity.
  - exists v. split; [exact Hv|]. split; [exact Hm|].
    vm_compute in Hf. injection Hf as <-. exact Hn.
Defined.

(** X9.  Viewing a loan answers status 404 exactly when no stored loan
    with the identifier has a stored customer: for an identifier that is
    not stored, and also for a stored loan whose customer is not. *)
Theorem view_loan_not_found (db : Db.t) (loan_id : string) :
  view_loan db loan_id = Raise (HTTPException 404 "Loan not found")
  <-> (forall loan,
         In loan (Db.loans db) -> Loan.loan_id loan = loan_id ->
         Db.find_one (customer_filter (Loan.customer_id loan)) (Db.customers db)
         = None).
Proof.
  unfold view_loan, loan_with_customer.
  induction (Db.loans db) as [|l ls IH].
  - simpl. split; [intros _ loan []|reflexivity].
  - simpl filter. unfold loan_filter at 1.
    destruct (String.eqb_spec (Loan.loan_id l) loan_id) as [E|E].
    + cbn [flat_map].
      destruct (Db.find_one (customer_filter (Loan.customer_id l)) (Db.customers db))
        as [c|] eqn:Hfind.
      * destruct (find_some_filter _ _ _ Hfind) as [rest ->].
        cbn [map app firstn]. split.
        -- destruct (Loan.loan_amount l), (Loan.monthly_repayment l),
             (Loan.tenure l), (Loan.emis_paid_on_time l);
             cbn [Py.getitem bind]; discriminate.
        -- intro H. specialize (H l (or_introl eq_refl) E).
           rewrite Hfind in H. discriminate H.
      * rewrite (find_none_filter _ _ Hfind). cbn [map app].
        rewrite IH. split.
        -- intros H loan [<-|Hin] Hid; [exact Hfind|now apply H].
        -- intros H loan Hin Hid. apply H; [now right|exact Hid].
    + rewrite IH. split.
      * intros H loan [<-|Hin] Hid; [contradiction|now apply H].
      * intros H loan Hin Hid. apply H; [now right|exact Hid].
Qed.

Lemma view_loan_not_found_witness :
  view_loan lent_store "l0" = Raise (HTTPException 404 "Loan not found").
Proof.
  apply view_loan_not_found. intros loan Hin Hid.
  vm_compute in Hin. destruct Hin as [<-|[]]. discriminate Hid.
Defined.

(** ** Repeated payments *)

Lemma exact_payment_on_schedule (installment : Q) :
  Py.ltb (Qabs (installment - installment)) (1 # 100) = true.
Proof.
  apply ltb_lt. apply Qabs_Qlt_condition. split; lra.
Qed.

(** One payment of exactly the installment. *)
Lemma make_payment_exact_step
    (db : Db.t) (loan_id : string) (t1 t2 : Z) (loan : Loan.t) (m : Q) :
  Db.find_one (loan_filter loan_id) (Db.loans db) = Some loan ->
  Loan.monthly_repayment loan = Some m ->
  let db' := fst (make_payment db loan_id m t1 t2) in
  Db.find_one (loan_filter loan_id) (Db.loans db')
  = Some (inc_emis_paid_on_time 1 loan)
  /\ List.length (Db.loan_payments db') = S (List.length (Db.loan_payments db))
  /\ Db.customers db' = Db.customers db.
Proof.
  intros Hfind Hm. unfold make_payment. rewrite Hfind, Hm.
  cbn [Py.getitem]. rewrite exact_payment_on_schedule.
  cbn [fst Db.loans Db.loan_payments Db.customers].
  split; [|split; [|reflexivity]].
  - rewrite find_one_update_one; [now rewrite Hfind|]. intro d. reflexivity.
  - unfold Db.insert_one. rewrite length_app. simpl. lia.
Qed.

(** X10.  Payments of exactly the installment are counted without bound:
    after [n] of them the on-time counter of the loan has grown by [n],
    whatever the tenure, [n] payments are stored, the debt of every
    customer is as before, and the loan list shows the tenure minus the
    counter as repayments left, a negative number once the counter
    exceeds the tenure. *)
Theorem pay_times_counts
    (n : nat) (db : Db.t) (loan_id : string) (loan : Loan.t)
    (amount m : Q) (tenure paid : Z) :
  Db.find_one (loan_filter loan_id) (Db.loans db) = Some loan ->
  Loan.loan_amount loan = Some amount ->
  Loan.monthly_repayment loan = Some m ->
  Loan.tenure loan = Some tenure ->
  Loan.emis_paid_on_time loan = Some paid ->
  let db' := pay_times n db loan_id m in
  exists loan' entry,
    Db.find_one (loan_filter loan_id) (Db.loans db') = Some loan'
    /\ Loan.emis_paid_on_time loan' = Some (paid + Z.of_nat n)%Z
    /\ Loan.tenure loan' = Some tenure
    /\ List.length (Db.loan_payments db')
       = (List.length (Db.loan_payments db) + n)%nat
    /\ Db.customers db' = Db.customers db
    /\ format_loan loan' = Ok entry
    /\ LoanSummary.repayments_left entry = (tenure - paid - Z.of_nat n)%Z.
Proof.
  cbv zeta. revert db loan paid.
  induction n as [|k IH]; intros db loan paid Hfind Ha Hm Ht He.
  - cbn [pay_times]. exists loan. eexists.
    split; [exact Hfind|]. split; [rewrite He; f_equal; lia|].
    split; [exact Ht|]. split; [lia|]. split; [reflexivity|].
    unfold format_loan. rewrite Ha, Hm, Ht, He. cbn.
    split; [reflexivity|]. cbn. lia.
  - cbn [pay_times].
    destruct (make_payment_exact_step db loan_id 0 0 loan m Hfind Hm)
      as (Hfind' & Hlen & Hcust).
    destruct (IH (fst (make_payment db loan_id m 0 0))
                (inc_emis_paid_on_time 1 loan) (paid + 1)%Z Hfind')
      as (loan' & entry & Hf & Hp & Hten & Hl & Hc & Hfmt & Hleft).
    + exact Ha.
    + exact Hm.
    + exact Ht.
    + cbn. now rewrite He.
    + exists loan', entry. split; [exact Hf|].
      split; [rewrite Hp; f_equal; lia|]. split; [exact Hten|].
      split; [rewrite Hl, Hlen; lia|]. split; [now rewrite Hc|].
      split; [exact Hfmt|]. rewrite Hleft. lia.
Qed.

Lemma pay_times_counts_witness :
  exists loan' entry,
    Db.find_one (loan_filter "l8") (Db.loans (pay_times 13 lent_store "l8" (879159 # 100)))
    = Some loan'
    /\ format_loan loan' = Ok entry
    /\ LoanSummary.repayments_left entry = (-1)%Z.
Proof.
  destruct (pay_times_counts 13 lent_store "l8"
              (Loan.mk "l8" "u4" (Some 100000) (Some 12%Z) 10
                 (Some (879159 # 100)) (Some 0%Z) 7
                 (7 + 12 * 30 * seconds_per_day)%Z "active" 7)
              100000 (879159 # 100) 12 0)
    as (loan' & entry & Hf & _ & _ & _ & _ & Hfmt & Hleft);
    [reflexivity..|].
  exists loan', entry. split; [exact Hf|]. split; [exact Hfmt|]. exact Hleft.
Defined.

(** ** Statistics *)

Lemma max_zero (x : Q) :
  0 <= Py.max 0 x /\ x <= Py.max 0 x
  /\ (0 <= x -> Py.max 0 x == x) /\ (x <= 0 -> Py.max 0 x == 0).
Proof.
  unfold Py.max. destruct (Py.ltb 0 x) eqn:E.
  - apply ltb_lt in E. repeat split; intros; lra.
  - apply ltb_ge in E. repeat split; intros; lra.
Qed.

Lemma payment_rates_complete (loans : list Loan.t) :
  Forall complete_loan loans ->
  Forall (fun v => v <> None) (payment_rates loans).
Proof.
  induction 1 as [|loan rest (_ & _ & _ & He) _ IH]; [constructor|].
  unfold payment_rates. cbn [flat_map]. fold (payment_rates rest).
  destruct (Loan.tenure loan) as [t|]; [|exact IH].
  destruct (t >? 0)%Z; [|exact IH].
  cbn [app]. constructor; [|exact IH].
  destruct (Loan.emis_paid_on_time loan); [discriminate|contradiction].
Qed.

Lemma mongo_avg_defined (values : list (option Q)) :
  values <> [] -> Forall (fun v => v <> None) values ->
  exists avg, mongo_avg values = Some avg.
Proof.
  intros Hne Hall. unfold mongo_avg.
  destruct values as [|[q|] rest]; [contradiction| |].
  - cbn [numeric_values flat_map app]. now eexists.
  - inversion Hall. contradiction.
Qed.

(** X11.  On a store with complete documents the statistics are always
    returned.  Whenever they are returned, the default rate is not
    negative and is 100 minus the average payment rate as long as that
    rate is at most 100, and 0 beyond; the counts are the numbers of
    stored customers and loans.  Without a stored loan of positive tenure
    the average payment rate is 0 and the default rate 100. *)
Theorem get_stats_rates (db : Db.t) :
  (complete_store db -> exists s, get_stats db = Stats.Returned s)
  /\ (forall s,
        get_stats db = Stats.Returned s ->
        0 <= Stats.default_rate s
        /\ (Stats.average_payment_rate s <= 100 ->
            Stats.default_rate s == 100 - Stats.average_payment_rate s)
        /\ (100 <= Stats.average_payment_rate s -> Stats.default_rate s == 0)
        /\ Stats.total_customers s = List.length (Db.customers db)
        /\ Stats.total_loans s = List.length (Db.loans db))
  /\ (payment_rates (Db.loans db) = [] ->
      exists s,
        get_stats db = Stats.Returned s
        /\ Stats.average_payment_rate s == 0
        /\ Stats.default_rate s == 100).
Proof.
  unfold get_stats. split; [|split].
  - intros [_ Hl].
    destruct (payment_rates (Db.loans db)) as [|v vs] eqn:Hr; [now eexists|].
    destruct (mongo_avg_defined (v :: vs)) as [avg Havg]; [discriminate| |].
    + rewrite <- Hr. now apply payment_rates_complete.
    + rewrite Havg. now eexists.
  - intros s.
    assert (Hcase : forall o : option Q,
               match o with
               | Some avg =>
                   Stats.Returned
                     (Stats.mk (List.length (Db.customers db))
                        (List.length (Db.loans db))
                        (fold_left Qplus
                           (numeric_values (map Loan.loan_amount (Db.loans db))) 0)
                        (avg * 100) (Py.max 0 ((1 - avg) * 100)))
               | None => Stats.TypeError
               end = Stats.Returned s ->
               exists avg,
                 s = Stats.mk (List.length (Db.customers db))
                       (List.length (Db.loans db))
                       (fold_left Qplus
                          (numeric_values (map Loan.loan_amount (Db.loans db))) 0)
                       (avg * 100) (Py.max 0 ((1 - avg) * 100))).
    { intros [avg|]; [|discriminate]. intro H. injection H as <-. now exists avg. }
    intro H. apply Hcase in H. destruct H as [avg ->].
    cbn [Stats.default_rate Stats.average_payment_rate Stats.total_customers
         Stats.total_loans].
    destruct (max_zero ((1 - avg) * 100)) as (H0 & _ & Hpos & Hneg).
    split; [exact H0|]. split; [|split; [|split; reflexivity]].
    + intro Hle. rewrite Hpos; lra.
    + intro Hge. rewrite Hneg; lra.
  - intros ->. eexists. split; [reflexivity|]. split; reflexivity.
Qed.

Lemma get_stats_rates_witness :
  (exists s, get_stats lent_store = Stats.Returned s)
  /\ (exists s,
        get_stats regular_store = Stats.Returned s
        /\ Stats.default_rate s == 100).
Proof.
  destruct (get_stats_rates lent_store) as (Hc & _ & _).
  destruct (get_stats_rates regular_store) as (_ & _ & He).
  split.
  - apply Hc. apply reachable_complete, lent_store_reachable.
  - destruct He as (s & Hs & _ & Hd); [reflexivity|].
    exists s. split; [exact Hs | exact Hd].
Defined.

(** ** Column lookup of the ingestion *)

Lemma column_present (df_columns : list string) (variation : string) :
  existsb (String.eqb variation) df_columns = true <-> In variation df_columns.
Proof.
  rewrite existsb_exists. split.
  - intros (c & Hin & Heq). apply String.eqb_eq in Heq. now subst.
  - intro Hin. exists variation. split; [exact Hin|apply String.eqb_refl].
Qed.

(** X12.  The column lookup returns the first of the accepted names, in
    the order of the list of variations and not of the table, that is a
    column of the table, and nothing exactly when no accepted name is a
    column. *)
Theorem find_column_first (df_columns field_variations : list string) :
  (forall v,
     find_column df_columns field_variations = Some v ->
     exists earlier later,
       field_variations = (earlier ++ v :: later)%list
       /\ In v df_columns
       /\ forall u, In u earlier -> ~ In u df_columns)
  /\ (find_column df_columns field_variations = None
      <-> forall v, In v field_variations -> ~ In v df_columns).
Proof.
  unfold find_column. split.
  - induction field_variations as [|u rest IH]; intros v; simpl; [discriminate|].
    destruct (existsb (String.eqb u) df_columns) eqn:E.
    + intro H. injection H as <-. exists [], rest.
      split; [reflexivity|]. split; [now apply column_present|].
      intros w [].
    + intro H. destruct (IH v H) as (earlier & later & -> & Hin & Hfirst).
      exists (u :: earlier), later. split; [reflexivity|].
      split; [exact Hin|].
      intros w [<-|Hw]; [|now apply Hfirst].
      intro Hc. apply column_present in Hc. congruence.
  - split.
    + intros Hnone v Hin Hc.
      pose proof (find_none _ _ Hnone v Hin) as Hf. cbn beta in Hf.
      apply column_present in Hc. congruence.
    + intro Hall. induction field_variations as [|u rest IH]; [reflexivity|].
      simpl. destruct (existsb (String.eqb u) df_columns) eqn:E.
      * exfalso. apply (Hall u); [now left|now apply column_present].
      * apply IH. intros v Hin. apply Hall. now right.
Qed.

Lemma find_column_first_witness :
  find_column ["Salary"; "phone number"; "Phone"]
    ["phone_number"; "Phone Number"; "phone number"; "Phone"]
  = Some "phone number"
  /\ find_column ["Salary"] ["phone_number"; "Phone"] = None.
Proof.
  split; [reflexivity|].
  apply find_column_first. intros v Hin Hc.
  destruct Hc as [<-|[]]. destruct Hin as [H|[H|[]]]; discriminate H.
Defined.

(** ** Monotonicity of the score *)

(** Truncation toward zero is monotone. *)
Lemma int_monotone (x y : Q) : x <= y -> (Py.int x <= Py.int y)%Z.
Proof.
  destruct x as [a b], y as [c d]. unfold Qle, Py.int. cbn [Qnum Qden].
  intro H.
  rewrite <- (Z.quot_mul_cancel_r a (Z.pos b) (Z.pos d)) by lia.
  rewrite <- (Z.quot_mul_cancel_r c (Z.pos d) (Z.pos b)) by lia.
  rewrite (Z.mul_comm (Z.pos d) (Z.pos b)).
  apply Z.quot_le_mono; [apply Z.mul_pos_pos; lia | exact H].
Qed.

(** The score of a nonempty history as one expression. *)
Lemma calculate_credit_score_formula
    (customer : Customer.t) (l : Loan.t) (ls : list Loan.t) :
  let loans := l :: ls in
  let total := Py.sumZ (map (fun loan => Py.get (Loan.tenure loan) 0%Z) loans) in
  let paid :=
    Py.sumZ (map (fun loan => Py.get (Loan.emis_paid_on_time loan) 0%Z) loans) in
  let payment_ratio :=
    if (total >? 0)%Z then inject_Z paid / inject_Z total else 0 in
  let debt := Py.get (Customer.current_debt customer) 0 in
  let limit := Py.get (Customer.approved_limit customer) 1 in
  let avg :=
    Py.sum (map (fun loan => Py.get (Loan.loan_amount loan) 0) loans)
    / inject_Z (Z.of_nat (List.length loans)) in
  let income_ratio :=
    if Py.gtb avg 0
    then Py.get (Customer.monthly_salary customer) 0 / avg else 0 in
  ~ limit == 0 ->
  calculate_credit_score customer loans
  = Ok (Z.max
          (Z.min
             (500 + Py.int (payment_ratio * 200)
              + Py.int ((1 - debt / limit) * 150) + 100
              + (if (3 <? List.length loans)%nat then 50 else 0)
              + (if Py.gtb income_ratio 2 then 50 else 0)) 850) 300)%Z.
Proof.
  intros loans total paid payment_ratio debt limit avg income_ratio Hlimit.
  unfold calculate_credit_score. fold loans. cbv zeta.
  fold total paid.
  assert (Hpr : (if (total >? 0)%Z
                 then Py.truediv (inject_Z paid) (inject_Z total) else Ok 0)
                = Ok payment_ratio).
  { unfold payment_ratio. destruct (total >? 0)%Z eqn:E; [|reflexivity].
    apply truediv_ok. apply inject_Z_nonzero. lia. }
  rewrite Hpr. cbn [bind]. fold debt limit.
  rewrite (truediv_ok _ _ Hlimit). cbn [bind].
  unfold loans at 3. rewrite average_defined. fold loans avg. cbn [bind].
  assert (Hir : (if Py.gtb avg 0
                 then Py.truediv (Py.get (Customer.monthly_salary customer) 0) avg
                 else Ok 0) = Ok income_ratio).
  { unfold income_ratio. destruct (Py.gtb avg 0) eqn:E; [|reflexivity].
    apply truediv_ok. apply gtb_gt in E. intro H. rewrite H in E.
    exact (Qlt_irrefl _ E). }
  rewrite Hir. cbn [bind].
  assert (H0 : (0 <? List.length loans)%nat = true) by reflexivity.
  rewrite H0. unfold loans at 1. cbv iota. f_equal.
  destruct (3 <? List.length loans)%nat, (Py.gtb income_ratio 2); lia.
Qed.

Lemma Ok_inj {A : Type} (a b : A) : Ok a = Ok b -> a = b.
Proof. intro H. now injection H. Qed.

Lemma fold_Zadd_monotone (xs ys : list Z) :
  Forall2 Z.le xs ys ->
  forall a b, (a <= b)%Z -> (fold_left Z.add xs a <= fold_left Z.add ys b)%Z.
Proof.
  induction 1 as [|x y xs ys Hxy _ IH]; intros a b Hab; simpl; [exact Hab|].
  apply IH. lia.
Qed.

Lemma Forall2_map_eq {A B : Type} (R : A -> A -> Prop) (f : A -> B)
    (xs ys : list A) :
  (forall x y, R x y -> f x = f y) -> Forall2 R xs ys -> map f xs = map f ys.
Proof.
  intros Hf. induction 1 as [|x y xs ys Hxy _ IH]; simpl; [reflexivity|].
  now rewrite (Hf x y Hxy), IH.
Qed.

Lemma Forall2_map_rel {A B : Type} (R : A -> A -> Prop) (S : B -> B -> Prop)
    (f : A -> B) (xs ys : list A) :
  (forall x y, R x y -> S (f x) (f y)) ->
  Forall2 R xs ys -> Forall2 S (map f xs) (map f ys).
Proof.
  intros Hf. induction 1 as [|x y xs ys Hxy _ IH]; simpl; constructor; auto.
Qed.

Lemma payment_ratio_monotone (paid paid' total : Z) :
  (paid <= paid')%Z ->
  (if (total >? 0)%Z then inject_Z paid / inject_Z total else 0) * 200
  <= (if (total >? 0)%Z then inject_Z paid' / inject_Z total else 0) * 200.
Proof.
  intro Hle. destruct (total >? 0)%Z eqn:E; [|apply Qle_refl].
  apply Qmult_le_compat_r; [|discriminate].
  unfold Qdiv. apply Qmult_le_compat_r; [now rewrite <- Zle_Qle|].
  apply Qinv_le_0_compat. change 0 with (inject_Z 0). rewrite <- Zle_Qle. lia.
Qed.

Lemma credit_score_monotone
    (customer : Customer.t) (loans loans' : list Loan.t) (s : Z) :
  Forall2
    (fun l l' =>
       Loan.tenure l = Loan.tenure l'
       /\ Loan.loan_amount l = Loan.loan_amount l'
       /\ (Py.get (Loan.emis_paid_on_time l) 0 <= Py.get (Loan.emis_paid_on_time l') 0)%Z)
    loans loans' ->
  calculate_credit_score customer loans = Ok s ->
  exists s', calculate_credit_score customer loans' = Ok s' /\ (s <= s')%Z.
Proof.
  intros Hall Hs.
  pose proof (Forall2_length Hall) as Hlen.
  pose proof (Forall2_map_eq _ (fun loan => Py.get (Loan.tenure loan) 0%Z) _ _
                (fun x y H => f_equal (fun t => Py.get t 0%Z) (proj1 H)) Hall)
    as Hten.
  pose proof (Forall2_map_eq _ (fun loan => Py.get (Loan.loan_amount loan) 0) _ _
                (fun x y H => f_equal (fun t => Py.get t 0) (proj1 (proj2 H))) Hall)
    as Hamt.
  pose proof (Forall2_map_rel _ Z.le
                (fun loan => Py.get (Loan.emis_paid_on_time loan) 0%Z) _ _
                (fun x y H => proj2 (proj2 H)) Hall) as Hpaid.
  destruct loans as [|l ls], loans' as [|l' ls']; try discriminate Hlen.
  - exists s. split; [exact Hs|lia].
  - destruct (Qeq_dec (Py.get (Customer.approved_limit customer) 1) 0) as [E|E].
    + destruct (calculate_credit_score_nonempty customer l ls) as [Hz _].
      rewrite (Hz E) in Hs. discriminate Hs.
    + pose proof (calculate_credit_score_formula customer l ls E) as F.
      pose proof (calculate_credit_score_formula customer l' ls' E) as F'.
      cbv zeta in F, F'. rewrite F in Hs. apply Ok_inj in Hs. subst s.
      rewrite F'. eexists. split; [reflexivity|].
      rewrite <- Hten, <- Hamt, <- Hlen.
      pose proof (int_monotone _ _
                    (payment_ratio_monotone _ _
                       (Py.sumZ (map (fun loan => Py.get (Loan.tenure loan) 0%Z)
                                   (l :: ls)))
                       (fold_Zadd_monotone _ _ Hpaid 0%Z 0%Z (Z.le_refl 0))))
        as Hint.
      unfold Py.sumZ in *. lia.
Qed.

(** X13.  On-time installments never lower the score: when a history is
    replaced by one with the same tenures and amounts, loan by loan, and
    on-time counters that are nowhere smaller, a score that was returned
    is returned again and is at least as high. *)
Theorem credit_score_monotone_in_payments
    (customer : Customer.t) (loans loans' : list Loan.t) (s : Z) :
  Forall2
    (fun l l' =>
       Loan.tenure l = Loan.tenure l'
       /\ Loan.loan_amount l = Loan.loan_amount l'
       /\ (Py.get (Loan.emis_paid_on_time l) 0 <= Py.get (Loan.emis_paid_on_time l') 0)%Z)
    loans loans' ->
  calculate_credit_score customer loans = Ok s ->
  exists s', calculate_credit_score customer loans' = Ok s' /\ (s <= s')%Z.
Proof. apply credit_score_monotone. Qed.

Lemma credit_score_monotone_in_payments_witness :
  exists s',
    calculate_credit_score no_limit_customer
      [inc_emis_paid_on_time 1 old_loan; inc_emis_paid_on_time 2 active_loan]
    = Ok s'
    /\ (833 <= s')%Z.
Proof.
  apply (credit_score_monotone_in_payments no_limit_customer
           [old_loan; active_loan]).
  - repeat constructor; cbn; lia.
  - vm_compute. reflexivity.
Defined.

(** X14.  More debt never raises the score: for a positive approved limit
    and an unchanged history, a customer document that differs by a larger
    stored debt gets a score that is at most the score of the other. *)
Theorem credit_score_antitone_in_debt
    (customer customer' : Customer.t) (loans : list Loan.t)
    (limit debt debt' : Q) (s : Z) :
  Customer.approved_limit customer = Some limit ->
  Customer.approved_limit customer' = Some limit ->
  Customer.monthly_salary customer' = Customer.monthly_salary customer ->
  Customer.current_debt customer = Some debt ->
  Customer.current_debt customer' = Some debt' ->
  0 < limit ->
  debt <= debt' ->
  calculate_credit_score customer loans = Ok s ->
  exists s', calculate_credit_score customer' loans = Ok s' /\ (s' <= s)%Z.
Proof.
  intros Hl Hl' Hsal Hd Hd' Hpos Hle Hs.
  destruct loans as [|l ls].
  - exists s. split; [exact Hs|lia].
  - assert (E : ~ Py.get (Customer.approved_limit customer) 1 == 0).
    { rewrite Hl. cbn. intro H. rewrite H in Hpos. discriminate Hpos. }
    assert (E' : ~ Py.get (Customer.approved_limit customer') 1 == 0).
    { rewrite Hl'. cbn. intro H. rewrite H in Hpos. discriminate Hpos. }
    pose proof (calculate_credit_score_formula customer l ls E) as F.
    pose proof (calculate_credit_score_formula customer' l ls E') as F'.
    cbv zeta in F, F'. rewrite F in Hs. apply Ok_inj in Hs. subst s.
    rewrite F'. eexists. split; [reflexivity|].
    rewrite Hsal, Hl, Hl', Hd, Hd'. cbn [Py.get].
    assert (Hint : (Py.int ((1 - debt' / limit) * 150)
                    <= Py.int ((1 - debt / limit) * 150))%Z).
    { apply int_monotone. apply Qmult_le_compat_r; [|discriminate].
      assert (Hdiv : debt / limit <= debt' / limit).
      { unfold Qdiv. apply Qmult_le_compat_r; [exact Hle|].
        apply Qinv_le_0_compat. now apply Qlt_le_weak. }
      lra. }
    lia.
Qed.

Lemma credit_score_antitone_in_debt_witness :
  exists s',
    calculate_credit_score
      (Customer.mk "u4" "Eve" "Fair" None (Some 50000) (Some 1800000)
         (Some 900000) 0)
      [old_loan] = Ok s'
    /\ (s' <= 850)%Z.
Proof.
  apply (credit_score_antitone_in_debt
           (Customer.mk "u4" "Eve" "Fair" None (Some 50000) (Some 1800000)
              (Some 0) 0)
           _ [old_loan] 1800000 0 900000); try reflexivity.
  discriminate.
Defined.

(** ** Payments and the score *)

Section Forall2Lists.

Context {A : Type}.
Variable R : A -> A -> Prop.

Lemma Forall2_update_one (p : A -> bool) (f : A -> A) (docs : list A) :
  (forall d, R d d) -> (forall d, R d (f d)) ->
  Forall2 R docs (Db.update_one p f docs).
Proof.
  intros Hrefl Hf. induction docs as [|d rest IH]; simpl; [constructor|].
  destruct (p d); constructor; auto.
  clear IH. induction rest; constructor; auto.
Qed.

Lemma Forall2_same (docs : list A) : (forall d, R d d) -> Forall2 R docs docs.
Proof. intro Hrefl. induction docs; constructor; auto. Qed.

Lemma Forall2_filter (p : A -> bool) (xs ys : list A) :
  (forall x y, R x y -> p x = p y) ->
  Forall2 R xs ys -> Forall2 R (filter p xs) (filter p ys).
Proof.
  intros Hp. induction 1 as [|x y xs ys Hxy _ IH]; simpl; [constructor|].
  rewrite <- (Hp x y Hxy). destruct (p x); [constructor|]; assumption.
Qed.

Lemma Forall2_firstn (n : nat) (xs ys : list A) :
  Forall2 R xs ys -> Forall2 R (firstn n xs) (firstn n ys).
Proof.
  intro H. revert n. induction H as [|x y xs ys Hxy _ IH]; intros [|n]; simpl;
    constructor; auto.
Qed.

End Forall2Lists.

(** The loans read for a customer before and after a payment. *)
Lemma make_payment_history
    (db : Db.t) (loan_id : string) (amount : Q) (t1 t2 : Z) (cid : string) :
  Forall2
    (fun l l' =>
       Loan.tenure l = Loan.tenure l'
       /\ Loan.loan_amount l = Loan.loan_amount l'
       /\ (Py.get (Loan.emis_paid_on_time l) 0 <= Py.get (Loan.emis_paid_on_time l') 0)%Z)
    (Db.find_to_list (loans_of_filter cid) 1000 (Db.loans db))
    (Db.find_to_list (loans_of_filter cid) 1000
       (Db.loans (fst (make_payment db loan_id amount t1 t2)))).
Proof.
  set (R := fun l l' : Loan.t =>
              Loan.customer_id l = Loan.customer_id l'
              /\ Loan.tenure l = Loan.tenure l'
              /\ Loan.loan_amount l = Loan.loan_amount l'
              /\ (Py.get (Loan.emis_paid_on_time l) 0
                  <= Py.get (Loan.emis_paid_on_time l') 0)%Z).
  assert (Hrefl : forall d, R d d) by (intro d; unfold R; repeat split; lia).
  assert (Hloans :
    Forall2 R (Db.loans db) (Db.loans (fst (make_payment db loan_id amount t1 t2)))).
  { unfold make_payment.
    destruct (Db.find_one _ (Db.loans db)); [|now apply Forall2_same].
    destruct (Py.getitem _ _); [|now apply Forall2_same].
    cbn [fst Db.loans]. destruct (Py.ltb _ _); [|now apply Forall2_same].
    apply Forall2_update_one; [exact Hrefl|].
    intro d. unfold R. cbn. repeat split.
    destruct (Loan.emis_paid_on_time d); cbn; lia. }
  unfold Db.find_to_list.
  apply (Forall2_impl (R1 := R)); [unfold R; tauto|].
  apply Forall2_firstn. apply Forall2_filter; [|exact Hloans].
  intros x y (Hid & _). unfold loans_of_filter. now rewrite Hid.
Qed.

(** X15.  A payment never lowers a credit score: whatever loan is paid
    and whatever the amount, a customer whose profile was returned before
    the payment gets a profile after it, with the same debt, limit and
    salary and a score that is at least the score before. *)
Theorem make_payment_never_lowers_score
    (db : Db.t) (loan_id : string) (amount : Q) (t1 t2 : Z)
    (customer_id : string) (p : CustomerProfile.t) :
  get_customer db customer_id = Ok p ->
  exists p',
    get_customer (fst (make_payment db loan_id amount t1 t2)) customer_id = Ok p'
    /\ (CustomerProfile.credit_score p <= CustomerProfile.credit_score p')%Z
    /\ CustomerProfile.current_debt p' = CustomerProfile.current_debt p
    /\ CustomerProfile.approved_limit p' = CustomerProfile.approved_limit p
    /\ CustomerProfile.monthly_salary p' = CustomerProfile.monthly_salary p.
Proof.
  unfold get_customer.
  assert (Hcust : Db.customers (fst (make_payment db loan_id amount t1 t2))
                  = Db.customers db).
  { unfold make_payment. destruct (Db.find_one _ (Db.loans db)); [|reflexivity].
    destruct (Py.getitem _ _); reflexivity. }
  rewrite Hcust.
  destruct (Db.find_one _ (Db.customers db)) as [customer|]; [|discriminate].
  destruct (calculate_credit_score customer
              (Db.find_to_list (loans_of_filter customer_id) 1000 (Db.loans db)))
    as [s|] eqn:Hs; [|discriminate].
  destruct (credit_score_monotone customer _ _ s
              (make_payment_history db loan_id amount t1 t2 customer_id) Hs)
    as (s' & Hs' & Hle).
  rewrite Hs'. cbn [bind].
  destruct (Customer.monthly_salary customer); [|discriminate].
  destruct (Customer.approved_limit customer); [|discriminate].
  destruct (Customer.current_debt customer); [|discriminate].
  cbn [Py.getitem bind]. intro H. apply Ok_inj in H. subst p.
  eexists. split; [reflexivity|]. cbn [CustomerProfile.credit_score
    CustomerProfile.current_debt CustomerProfile.approved_limit
    CustomerProfile.monthly_salary].
  repeat split. exact Hle.
Qed.

Lemma make_payment_never_lowers_score_witness :
  exists p',
    get_customer (fst (make_payment lent_store "l8" (879159 # 100) 9 9)) "u4"
    = Ok p'
    /\ (649 <= CustomerProfile.credit_score p')%Z.
Proof.
  destruct (make_payment_never_lowers_score lent_store "l8" (879159 # 100) 9 9
              "u4"
              (CustomerProfile.mk "u4" "Eve" "Fair" None 50000
                 (inject_Z 1800000) (0 + 100000) 741 1 1))
    as (p' & Hp & Hle & _).
  - vm_compute. reflexivity.
  - exists p'. split; [exact Hp|]. cbn in Hle. lia.
Defined.

(** ** The installment and the principal *)

(** The growth factor of [n] months is bounded by [n] months of
    interest on it. *)
Lemma annuity_bound (i : Q) (n : nat) :
  0 < i ->
  (1 + i) ^ Z.of_nat n - 1 <= inject_Z (Z.of_nat n) * i * (1 + i) ^ Z.of_nat n.
Proof.
  intro Hi. induction n as [|n IH].
  - change (Z.of_nat 0) with 0%Z. change ((1 + i) ^ 0) with 1.
    change (inject_Z 0) with 0. lra.
  - rewrite Nat2Z.inj_succ. unfold Z.succ.
    rewrite Qpower_plus by lra. rewrite inject_Z_plus.
    change ((1 + i) ^ 1) with (1 + i). change (inject_Z 1) with 1.
    set (p := (1 + i) ^ Z.of_nat n) in *.
    set (N := inject_Z (Z.of_nat n)) in *.
    assert (Hp : 0 <= p) by (apply Qpower_0_le; lra).
    assert (HN : 0 <= N).
    { unfold N. change 0 with (inject_Z 0). rewrite <- Zle_Qle. lia. }
    assert (H1 : 0 <= i * i * p).
    { apply Qmult_le_0_compat; [|exact Hp].
      apply Qmult_le_0_compat; lra. }
    assert (H2 : 0 <= N * (i * i * p)) by (now apply Qmult_le_0_compat).
    assert (E : (N + 1) * i * (p * (1 + i))
                == N * i * p + i * p + N * (i * i * p) + i * i * p) by ring.
    rewrite E. lra.
Qed.

Lemma round2_nearest (x : Q) :
  x - (1 # 200) <= Py.round2 x /\ Py.round2 x <= x + (1 # 200).
Proof.
  pose proof (round_nearest (x * 100)) as H.
  apply Qabs_Qle_condition in H. unfold Py.round2.
  set (R := inject_Z (Py.round (x * 100))) in *.
  assert (E : R / 100 == R * (1 # 100)) by (unfold Qdiv; reflexivity).
  rewrite E. split; lra.
Qed.

Lemma round2_nonnegative (x : Q) : 0 <= x -> 0 <= Py.round2 x.
Proof.
  intro Hx. unfold Py.round2.
  assert (H : (0 <= Py.round (x * 100))%Z).
  { apply round_nonnegative. apply Qmult_le_0_compat; [exact Hx|discriminate]. }
  rewrite Zle_Qle in H. change (inject_Z 0) with 0 in H.
  set (R := inject_Z (Py.round (x * 100))) in *.
  assert (E : R / 100 == R * (1 # 100)) by (unfold Qdiv; reflexivity).
  rewrite E. lra.
Qed.



(** ** The installment as a function of the principal *)

Lemma round_between (x : Q) :
  (Qfloor x <= Py.round x <= Qfloor x + 1)%Z.
Proof.
  unfold Py.round.
  destruct (Py.ltb _ (1 # 2)); [lia|].
  destruct (Py.ltb (1 # 2) _); [lia|].
  destruct (Z.even (Qfloor x)); lia.
Qed.

Lemma round_monotone (x y : Q) : x <= y -> (Py.round x <= Py.round y)%Z.
Proof.
  intro Hxy. pose proof (Qfloor_resp_le _ _ Hxy) as Hf.
  destruct (Z.eq_dec (Qfloor x) (Qfloor y)) as [E|E].
  - unfold Py.round. rewrite <- E.
    destruct (Py.ltb (x - inject_Z (Qfloor x)) (1 # 2)) eqn:X1.
    + destruct (Py.ltb (y - inject_Z (Qfloor x)) (1 # 2)); [lia|].
      destruct (Py.ltb (1 # 2) (y - inject_Z (Qfloor x))); [lia|].
      destruct (Z.even (Qfloor x)); lia.
    + apply ltb_ge in X1.
      destruct (Py.ltb (y - inject_Z (Qfloor x)) (1 # 2)) eqn:Y1.
      { apply ltb_lt in Y1. lra. }
      destruct (Py.ltb (1 # 2) (x - inject_Z (Qfloor x))) eqn:X2.
      * apply ltb_lt in X2.
        destruct (Py.ltb (1 # 2) (y - inject_Z (Qfloor x))) eqn:Y2; [lia|].
        apply ltb_ge in Y2. lra.
      * destruct (Py.ltb (1 # 2) (y - inject_Z (Qfloor x))).
        -- destruct (Z.even (Qfloor x)); lia.
        -- lia.
  - pose proof (round_between x). pose proof (round_between y). lia.
Qed.

Lemma round2_monotone (x y : Q) : x <= y -> Py.round2 x <= Py.round2 y.
Proof.
  intro Hxy. unfold Py.round2, Qdiv.
  apply Qmult_le_compat_r; [|discriminate].
  rewrite <- Zle_Qle. apply round_monotone.
  apply Qmult_le_compat_r; [exact Hxy|discriminate].
Qed.



(** ** A floor for the score *)

Lemma int_nonnegative (x : Q) : 0 <= x -> (0 <= Py.int x)%Z.
Proof.
  intro H. change 0%Z with (Py.int 0). now apply int_monotone.
Qed.

Lemma fold_Zadd_nonnegative (xs : list Z) :
  Forall (fun x => 0 <= x)%Z xs ->
  forall a, (0 <= a)%Z -> (0 <= fold_left Z.add xs a)%Z.
Proof.
  induction 1 as [|x xs Hx _ IH]; intros a Ha; simpl; [exact Ha|].
  apply IH. lia.
Qed.

(** X18.  A customer whose debt is within a positive approved limit and
    whose loans have on-time counters that are not negative always gets a
    score, of at least 500, and of at least 600 when there is a history:
    the reject rule for scores below 500 cannot apply to such a
    customer. *)
Theorem credit_score_floor
    (customer : Customer.t) (loans : list Loan.t) (limit debt : Q) :
  Customer.approved_limit customer = Some limit ->
  Customer.current_debt customer = Some debt ->
  0 < limit ->
  debt <= limit ->
  Forall (fun loan => 0 <= Py.get (Loan.emis_paid_on_time loan) 0)%Z loans ->
  exists s,
    calculate_credit_score customer loans = Ok s
    /\ (500 <= s)%Z
    /\ (loans <> [] -> 600 <= s)%Z.
Proof.
  intros Hl Hd Hpos Hle Hpaid.
  destruct loans as [|l ls].
  - exists 500%Z. split; [reflexivity|]. split; [lia|]. intro H. now elim H.
  - assert (E : ~ Py.get (Customer.approved_limit customer) 1 == 0).
    { rewrite Hl. cbn. lra. }
    pose proof (calculate_credit_score_formula customer l ls E) as F.
    cbv zeta in F. rewrite F. eexists. split; [reflexivity|].
    rewrite Hl, Hd. cbn [Py.get].
    assert (H1 : (0 <= Py.int ((1 - debt / limit) * 150))%Z).
    { apply int_nonnegative. apply Qmult_le_0_compat; [|discriminate].
      assert (Hdiv : debt / limit <= 1).
      { apply Qle_shift_div_r; [exact Hpos|]. lra. }
      lra. }
    set (total := Py.sumZ (map (fun loan => Py.get (Loan.tenure loan) 0%Z) (l :: ls))).
    set (paid := Py.sumZ (map (fun loan => Py.get (Loan.emis_paid_on_time loan) 0%Z)
                            (l :: ls))).
    assert (Hp : (0 <= paid)%Z).
    { unfold paid, Py.sumZ. apply fold_Zadd_nonnegative; [|lia].
      apply Forall_map. exact Hpaid. }
    assert (H2 : (0 <= Py.int ((if (total >? 0)%Z
                                then inject_Z paid / inject_Z total else 0) * 200))%Z).
    { apply int_nonnegative. apply Qmult_le_0_compat; [|discriminate].
      destruct (total >? 0)%Z eqn:Et; [|apply Qle_refl].
      apply Qle_shift_div_l.
      - change 0 with (inject_Z 0). rewrite <- Zlt_Qlt. lia.
      - rewrite Qmult_0_l. change 0 with (inject_Z 0). now rewrite <- Zle_Qle. }
    destruct (3 <? List.length (l :: ls))%nat, (Py.gtb _ 2); split; intros; lia.
Qed.

Lemma credit_score_floor_witness :
  exists s,
    calculate_credit_score
      (Customer.mk "u4" "Eve" "Fair" None (Some 50000) (Some 1800000)
         (Some 1800000) 0)
      [old_loan] = Ok s
    /\ (600 <= s)%Z.
Proof.
  destruct (credit_score_floor
              (Customer.mk "u4" "Eve" "Fair" None (Some 50000) (Some 1800000)
                 (Some 1800000) 0)
              [old_loan] 1800000 1800000) as (s & Hs & _ & H600);
    try reflexivity.
  - discriminate.
  - repeat constructor. cbn. lia.
  - exists s. split; [exact Hs|]. apply H600. discriminate.
Defined.

(** ** Statistics after a loan creation *)

Lemma numeric_values_app (xs ys : list (option Q)) :
  numeric_values (xs ++ ys) = (numeric_values xs ++ numeric_values ys)%list.
Proof. unfold numeric_values. apply flat_map_app. Qed.

Lemma payment_rates_app (xs ys : list Loan.t) :
  payment_rates (xs ++ ys) = (payment_rates xs ++ payment_rates ys)%list.
Proof. unfold payment_rates. apply flat_map_app. Qed.

Lemma mongo_avg_numeric (values : list (option Q)) :
  numeric_values values <> [] -> exists avg, mongo_avg values = Some avg.
Proof.
  unfold mongo_avg. destruct (numeric_values values); [contradiction|].
  intros _. now eexists.
Qed.

(** What the statistics are made of, when they are returned. *)
Lemma get_stats_returned (db : Db.t) (s : Stats.t) :
  get_stats db = Stats.Returned s ->
  Stats.total_customers s = List.length (Db.customers db)
  /\ Stats.total_loans s = List.length (Db.loans db)
  /\ Stats.total_loan_amount s
     = fold_left Qplus (numeric_values (map Loan.loan_amount (Db.loans db))) 0
  /\ (payment_rates (Db.loans db) = []
      \/ exists avg, mongo_avg (payment_rates (Db.loans db)) = Some avg).
Proof.
  unfold get_stats.
  destruct (payment_rates (Db.loans db)) as [|v vs].
  - intro H. injection H as <-. repeat split. now left.
  - destruct (mongo_avg (v :: vs)) as [avg|]; [|discriminate].
    intro H. injection H as <-. repeat split. right. now exists avg.
Qed.

Lemma get_stats_defined (db : Db.t) :
  (payment_rates (Db.loans db) = []
   \/ exists avg, mongo_avg (payment_rates (Db.loans db)) = Some avg) ->
  exists s, get_stats db = Stats.Returned s.
Proof.
  unfold get_stats. intros [->|[avg Havg]]; [now eexists|].
  destruct (payment_rates (Db.loans db)); [now eexists|].
  rewrite Havg. now eexists.
Qed.

(** X19.  The statistics follow a loan creation: when they were returned
    before a creation that succeeds, they are returned after it, with the
    same number of customers, one loan more, and a total loan amount that
    is the old total plus the amount of the new loan. *)
Theorem create_loan_updates_stats
    (db db' : Db.t) (data : LoanRequest.t) (uuid : string) (t1 t2 : Z)
    (r : LoanResponse.t) (s : Stats.t) :
  create_loan db data uuid t1 t2 = (db', Ok r) ->
  get_stats db = Stats.Returned s ->
  exists s',
    get_stats db' = Stats.Returned s'
    /\ Stats.total_customers s' = Stats.total_customers s
    /\ Stats.total_loans s' = S (Stats.total_loans s)
    /\ Stats.total_loan_amount s'
       = Stats.total_loan_amount s + LoanRequest.loan_amount data.
Proof.
  intros Hc Hs.
  destruct (create_loan_success_rules _ _ _ _ _ _ _ Hc)
    as (customer & score & emi & salary & debt & limit & _ & _ & _
        & _ & _ & _ & _ & _ & _ & _ & _ & ->).
  destruct (get_stats_returned db s Hs) as (Hcust & Hloans & Hamt & Havg).
  set (doc := Loan.mk uuid (LoanRequest.customer_id data)
                (Some (LoanRequest.loan_amount data))
                (Some (LoanRequest.tenure data)) (LoanRequest.interest_rate data)
                (Some emi) (Some 0%Z) t1
                (t1 + LoanRequest.tenure data * 30 * seconds_per_day)%Z
                "active" t2).
  set (db' := Db.mk _ _ _).
  assert (Hdef : exists s', get_stats db' = Stats.Returned s').
  { apply get_stats_defined. unfold db'. cbn [Db.loans].
    rewrite payment_rates_app.
    destruct (payment_rates [doc]) as [|v vs] eqn:Hdoc.
    - rewrite app_nil_r. exact Havg.
    - right. apply mongo_avg_numeric. rewrite numeric_values_app.
      unfold payment_rates in Hdoc. cbn [flat_map doc Loan.tenure
        Loan.emis_paid_on_time app] in Hdoc.
      destruct (LoanRequest.tenure data >? 0)%Z; [|discriminate Hdoc].
      injection Hdoc as <- <-.
      cbn [numeric_values flat_map app].
      destruct (numeric_values (payment_rates (Db.loans db))); discriminate. }
  destruct Hdef as [s' Hs'].
  destruct (get_stats_returned db' s' Hs') as (Hcust' & Hloans' & Hamt' & _).
  exists s'. split; [exact Hs'|].
  unfold db' in *. cbn [Db.customers Db.loans] in *.
  split; [|split].
  - rewrite Hcust', Hcust. apply update_one_length.
  - rewrite Hloans', Hloans, length_app. simpl. lia.
  - rewrite Hamt', Hamt, map_app, numeric_values_app, fold_left_app.
    reflexivity.
Qed.

Lemma create_loan_updates_stats_witness :
  exists s',
    get_stats lent_store = Stats.Returned s'
    /\ Stats.total_loans s' = 1%nat
    /\ Stats.total_loan_amount s' = 0 + 100000.
Proof.
  destruct (create_loan_updates_stats regular_store lent_store first_loan "l8" 7 7
              (LoanResponse.mk "l8" "u4" true "Loan approved successfully"
                 (879159 # 100))
              (Stats.mk 1 0 0 (0 * 100) (Py.max 0 ((1 - 0) * 100))))
    as (s' & Hs' & _ & Hl & Ha).
  - vm_compute. reflexivity.
  - reflexivity.
  - exists s'. split; [exact Hs'|]. split; [exact Hl | exact Ha].
Defined.
